(** * GalGamePlugin: the per-session narrative state machine of [main.py]

    A shallow embedding of the plugin class of [src/main.py]: the session
    store [game_sessions], the three message handlers and the four
    generation phases, followed by the properties of the specification that
    concern them.

    The handlers are Python async generators.  They are modelled in a state
    and exception monad over a run state that holds the plugin's session
    store, the state of the host framework, the plain results yielded so far
    and the two flags of the event being handled.  An exception is
    represented by the text [str(e)] that the handlers print; mutations made
    before an exception is raised stay, as in Python.  Only exceptions of
    class [Exception] are represented: what [except Exception] lets through
    ([asyncio.CancelledError] and the other [BaseException]s) is outside the
    model.  Calls to [logger] have no effect on any of this and are left
    out. *)

From Stdlib Require Import String Ascii List.
From stdpp Require Import gmap strings list fin_maps.

Local Open Scope string_scope.
Local Open Scope list_scope.

(** ** Data model *)

(** The ["role"] of a context entry. *)
Inductive Role := system | assistant | user.

(** One entry [{"role": ..., "content": ...}] of [llm_context]. *)
Record Message := mkMessage { role : Role; content : string }.

(** The value stored per session:
    [{"game_active": bool, "llm_context": list, "last_options": dict}]. *)
Record Session := mkSession {
  game_active : bool;
  llm_context : list Message;
  last_options : gmap string string
}.

(** The keyword arguments of one [text_chat] call. *)
Record ChatRequest := mkChatRequest {
  prompt : string;
  system_prompt : string;
  contexts : list Message
}.

(** A provider response; [completion_text = None] stands for an object on
    which [hasattr(response, 'completion_text')] is false. *)
Record Response := mkResponse { completion_text : option string }.

(** A conversation object; [persona_id = None] covers both a missing
    attribute and the value [None] (the source maps the former to the
    latter). *)
Record Conversation := mkConversation { persona_id : option string }.

(** A persona is a dict read with [.get("id")] and [.get("prompt", d)]. *)
Abbreviation Persona := (gmap string string).

(** The inbound event: its session identifier and its text. *)
Record Event := mkEvent { unified_msg_origin : string; message_str : string }.

(** The [str] methods and [repr] of the Python runtime that the plugin
    calls; [repr] only gives the text of a [KeyError]. *)
Record Builtins := mkBuiltins {
  str_strip : string -> string;
  str_upper : string -> string;
  repr : string -> string
}.

(** The host framework behind [self.context], a state machine over [Env].
    Every call either raises an [Exception] (left, the text of the
    exception) or returns.
    - [lookup_conversation sid]: the two awaits
      [get_curr_conversation_id(sid)] and [get_conversation(sid, id)], which
      follow each other directly; [None] is a falsy conversation;
    - [get_using_provider]: [self.context.get_using_provider()] followed by
      the attribute lookup [.text_chat];
    - [text_chat]: the awaited call itself;
    - the persona attributes read by [_get_system_prompt]. *)
Record Host (Env : Type) := mkHost {
  lookup_conversation : string -> Env -> (string + option Conversation) * Env;
  get_llm_tool_manager : Env -> (string + unit) * Env;
  selected_default_persona : Env -> string + option Persona;
  personas : Env -> string + list Persona;
  get_using_provider : Env -> (string + unit) * Env;
  text_chat : ChatRequest -> Env -> (string + Response) * Env
}.
Arguments lookup_conversation {Env} _ _ _.
Arguments get_llm_tool_manager {Env} _ _.
Arguments selected_default_persona {Env} _ _.
Arguments personas {Env} _ _.
Arguments get_using_provider {Env} _ _.
Arguments text_chat {Env} _ _ _.

(** The state a handler runs in.  [results] lists the texts passed to
    [yield event.plain_result(...)] in order; [chat_log] is a ghost record
    of the requests handed to [text_chat], each with the context list as it
    was at the call; [call_llm] and [stopped] are the event's flags set by
    [should_call_llm(False)] and [stop_event()]. *)
Record State (Env : Type) := mkState {
  game_sessions : gmap string Session;
  env : Env;
  results : list string;
  chat_log : list ChatRequest;
  call_llm : bool;
  stopped : bool
}.
Arguments mkState {Env} _ _ _ _ _ _.
Arguments game_sessions {Env} _.
Arguments env {Env} _.
Arguments results {Env} _.
Arguments chat_log {Env} _.
Arguments call_llm {Env} _.
Arguments stopped {Env} _.

(** The newline of the f-strings. *)
Definition nl : string := String (ascii_of_nat 10) EmptyString.

(** ** The monad of handlers *)

Module Run.
Definition M (Env A : Type) : Type := State Env -> (string + A) * State Env.

Definition ret {Env A} (a : A) : M Env A := fun st => (inr a, st).

Definition bind {Env A B} (m : M Env A) (k : A -> M Env B) : M Env B :=
  fun st =>
    match m st with
    | (inl e, st') => (inl e, st')
    | (inr a, st') => k a st'
    end.

Definition raise {Env A} (e : string) : M Env A := fun st => (inl e, st).

(** [try: body except Exception as e: handler(str(e))]; every raise of the
    model is of class [Exception] and is caught here. *)
Definition try_except {Env A} (body : M Env A) (handler : string -> M Env A)
  : M Env A :=
  fun st =>
    match body st with
    | (inl e, st') => handler e st'
    | (inr a, st') => (inr a, st')
    end.
End Run.
Import Run.

Declare Scope py_scope.
Delimit Scope py_scope with py.
Notation "x <- m ;; k" := (bind m (fun x => k))
  (at level 100, m at next level, right associativity) : py_scope.
Notation "m ;; k" := (bind m (fun _ => k))
  (at level 100, right associativity) : py_scope.
Local Open Scope py_scope.

Section Plugin.
Context {Env : Type}.
Variable host : Host Env.
Variable py : Builtins.
Variable config : gmap string string.

Abbreviation M := (Run.M Env).

(** *** Primitive steps *)

(** [yield event.plain_result(text)]. *)
Definition plain_result (text : string) : M unit :=
  fun st => (inr tt, mkState (game_sessions st) (env st) (results st ++ [text])
                             (chat_log st) (call_llm st) (stopped st)).

(** [event.should_call_llm(False)]. *)
Definition should_call_llm (b : bool) : M unit :=
  fun st => (inr tt, mkState (game_sessions st) (env st) (results st)
                             (chat_log st) b (stopped st)).

(** [event.stop_event()]. *)
Definition stop_event : M unit :=
  fun st => (inr tt, mkState (game_sessions st) (env st) (results st)
                             (chat_log st) (call_llm st) true).

(** [self.game_sessions[session_id]]: a [KeyError] when absent. *)
Definition session (session_id : string) : M Session :=
  fun st =>
    match game_sessions st !! session_id with
    | Some s => (inr s, st)
    | None => raise (repr py session_id) st
    end.

(** [self.game_sessions[session_id] = s]. *)
Definition put_session (session_id : string) (s : Session) : M unit :=
  fun st => (inr tt, mkState (<[session_id := s]> (game_sessions st)) (env st)
                             (results st) (chat_log st) (call_llm st) (stopped st)).

(** [session_id in self.game_sessions and
     self.game_sessions[session_id].get("game_active", False)]. *)
Definition is_active (session_id : string) : M bool :=
  fun st =>
    (inr match game_sessions st !! session_id with
         | Some s => game_active s
         | None => false
         end, st).

(** [self.game_sessions[session_id]["game_active"] = b]. *)
Definition set_game_active (session_id : string) (b : bool) : M unit :=
  s <- session session_id ;;
  put_session session_id (mkSession b (llm_context s) (last_options s)).

(** [self.game_sessions[session_id]["llm_context"] = l]. *)
Definition set_llm_context (session_id : string) (l : list Message) : M unit :=
  s <- session session_id ;;
  put_session session_id (mkSession (game_active s) l (last_options s)).

(** [self.game_sessions[session_id]["llm_context"].append(m)]. *)
Definition append_context (session_id : string) (m : Message) : M unit :=
  s <- session session_id ;;
  put_session session_id
    (mkSession (game_active s) (llm_context s ++ [m]) (last_options s)).

(** [self.game_sessions[session_id]["last_options"] = o]. *)
Definition set_last_options (session_id : string) (o : gmap string string)
  : M unit :=
  s <- session session_id ;;
  put_session session_id (mkSession (game_active s) (llm_context s) o).

(** [self.game_sessions[session_id]["last_options"][label] = text]. *)
Definition store_option (session_id label text : string) : M unit :=
  s <- session session_id ;;
  put_session session_id
    (mkSession (game_active s) (llm_context s) (<[label := text]> (last_options s))).

(** Lifting of a host call that changes the host state. *)
Definition host_call {A} (f : Env -> (string + A) * Env) : M A :=
  fun st =>
    let '(r, e) := f (env st) in
    (r, mkState (game_sessions st) e (results st) (chat_log st)
                (call_llm st) (stopped st)).

(** The awaited [text_chat(prompt=..., system_prompt=..., contexts=...)],
    recorded in [chat_log]. *)
Definition chat (req : ChatRequest) : M Response :=
  fun st =>
    let '(r, e) := text_chat host req (env st) in
    (r, mkState (game_sessions st) e (results st) (chat_log st ++ [req])
                (call_llm st) (stopped st)).

(** [self.context.get_using_provider().text_chat(prompt=p, system_prompt=sp,
    contexts=self.game_sessions[session_id]["llm_context"])]: the callee is
    evaluated first, then the arguments, then the call is made. *)
Definition provider_text_chat (session_id p sp : string) : M Response :=
  host_call (get_using_provider host) ;;
  s <- session session_id ;;
  chat (mkChatRequest p sp (llm_context s)).

(** *** Prompt templates ([__init__]) *)

Definition scene_prompt_default : string :=
  "你现在扮演Galgame中的一个角色，请根据当前人格设定，以第一人称视角创造一个沉浸式开场：1)描述周围环境和氛围，2)表达你(角色)此刻的心情和想法，3)向玩家(称为'你')自然地开启对话。注意保持角色特点一致，并在对话中埋下后续剧情的伏笔。".
Definition option_a_prompt_default : string :=
  "基于当前故事情境，为玩家创建一个温柔/体贴/善解人意风格的互动选项，标记为A。这个选项应该是玩家对角色说的话或采取的行动，而非角色的想法。必须严格按照'A - [选项内容]'格式输出，内容控制在20字以内。".
Definition option_b_prompt_default : string :=
  "基于当前故事情境，为玩家创建一个挑逗/暧昧/幽默风格的互动选项，标记为B。这个选项应该是玩家对角色说的话或采取的行动，而非角色的想法。必须严格按照'B - [选项内容]'格式输出，内容控制在20字以内。".
Definition option_c_prompt_default : string :=
  "基于当前故事情境，为玩家创建一个理性/保守/谨慎风格的互动选项，标记为C。这个选项应该是玩家对角色说的话或采取的行动，而非角色的想法。必须严格按照'C - [选项内容]'格式输出，内容控制在20字以内。".
Definition response_prompt_default : string :=
  "玩家已选择了一个互动选项。请你以角色视角，根据玩家的选择自然地延续对话和情节。回应中应该：1)表现出角色对玩家选择的情感反应，2)推进故事情节发展，3)展示角色的个性特点，4)留下悬念以便故事继续。保持叙述生动且符合角色设定。".

(** [self.config.get(key, dflt)]. *)
Definition config_get (key dflt : string) : string := default dflt (config !! key).

Definition SYSTEM_SCENE_PROMPT : string := config_get "scene_prompt" scene_prompt_default.
Definition OPTION_A_PROMPT : string := config_get "option_a_prompt" option_a_prompt_default.
Definition OPTION_B_PROMPT : string := config_get "option_b_prompt" option_b_prompt_default.
Definition OPTION_C_PROMPT : string := config_get "option_c_prompt" option_c_prompt_default.
Definition SYSTEM_RESPONSE_PROMPT : string := config_get "response_prompt" response_prompt_default.

(** *** [_get_system_prompt] *)

(** Reads the persona attributes of the host; whatever they raise is
    caught and logged, and the default prompt is returned. *)
Definition _get_system_prompt (e : Env) (persona : option string)
    (default_prompt : string) : string :=
  match persona with
  | None =>
      match selected_default_persona host e with
      | inr (Some default_persona) =>
          if decide (default_persona = ∅) then default_prompt
          else default default_prompt (default_persona !! "prompt")
      | _ => default_prompt
      end
  | Some pid =>
      if decide (pid = "[%None]") then default_prompt
      else
        match personas host e with
        | inr ps =>
            match find (fun p => bool_decide (p !! "id" = Some pid)) ps with
            | Some p => default default_prompt (p !! "prompt")
            | None => default_prompt
            end
        | inl _ => default_prompt
        end
  end.

Definition get_system_prompt (persona : option string) (default_prompt : string)
  : M string :=
  fun st => (inr (_get_system_prompt (env st) persona default_prompt), st).

(** The outcome of one provider call as the host decides it:
    [get_using_provider()] and then [text_chat(req)]. *)
Definition call_provider (req : ChatRequest) (e : Env) : (string + Response) * Env :=
  match get_using_provider host e with
  | (inl detail, e1) => (inl detail, e1)
  | (inr _, e1) => text_chat host req e1
  end.

(** *** [_generate_options] *)

Definition fixed_system_prompt : string :=
  "你是一个视觉小说游戏引擎，负责生成玩家可以选择的选项".

Definition option_a_fallback : string := "A - 温柔微笑".
Definition option_b_fallback : string := "B - 挑逗一笑".
Definition option_c_fallback : string := "C - 保持距离".

(** [r.completion_text if hasattr(r, 'completion_text') else fallback]. *)
Definition text_or (fallback : string) (r : Response) : string :=
  default fallback (completion_text r).

(** The request of an option call on the context list [h]. *)
Definition option_request (p : string) (h : list Message) : ChatRequest :=
  mkChatRequest p fixed_system_prompt h.

(** The dict [last_options] after the three stores, in their order. *)
Definition three_options (a b c : string) : gmap string string :=
  <["C" := c]> (<["B" := b]> (<["A" := a]> ∅)).

(** The entry appended after the three options. *)
Definition options_summary (a b c : string) : Message :=
  mkMessage assistant ("提供的选项：" +:+ nl +:+ a +:+ nl +:+ b +:+ nl +:+ c).

Definition _generate_options (event : Event) : M unit :=
  let session_id := unified_msg_origin event in
  try_except
    (conversation <- host_call (lookup_conversation host session_id) ;;
     match conversation with
     | None => plain_result "无法获取对话，请重新开始游戏"
     | Some _ =>
         set_last_options session_id ∅ ;;
         option_a_response <-
           provider_text_chat session_id OPTION_A_PROMPT fixed_system_prompt ;;
         let option_a_text := text_or option_a_fallback option_a_response in
         store_option session_id "A" option_a_text ;;
         plain_result option_a_text ;;
         option_b_response <-
           provider_text_chat session_id OPTION_B_PROMPT fixed_system_prompt ;;
         let option_b_text := text_or option_b_fallback option_b_response in
         store_option session_id "B" option_b_text ;;
         plain_result option_b_text ;;
         option_c_response <-
           provider_text_chat session_id OPTION_C_PROMPT fixed_system_prompt ;;
         let option_c_text := text_or option_c_fallback option_c_response in
         store_option session_id "C" option_c_text ;;
         plain_result option_c_text ;;
         append_context session_id
           (options_summary option_a_text option_b_text option_c_text)
     end)
    (fun e => plain_result ("生成选项时出错: " +:+ e)).

(** *** [_generate_initial_scene] *)

Definition scene_engine_prompt : string :=
  "你是一个视觉小说游戏引擎，能生成优质的Galgame剧情和选项".

(** The request of the scene call made in host state [e] for the
    conversation [c] on the context list [h]. *)
Definition scene_request (e : Env) (c : Conversation) (h : list Message)
  : ChatRequest :=
  mkChatRequest SYSTEM_SCENE_PROMPT
    (_get_system_prompt e (persona_id c) scene_engine_prompt) h.

Definition _generate_initial_scene (event : Event) : M unit :=
  let session_id := unified_msg_origin event in
  try_except
    (conversation <- host_call (lookup_conversation host session_id) ;;
     match conversation with
     | None => plain_result "无法获取对话，请重新开始游戏"
     | Some conversation =>
         host_call (get_llm_tool_manager host) ;;
         system_prompt <-
           get_system_prompt (persona_id conversation) scene_engine_prompt ;;
         let system_scene_prompt_text := SYSTEM_SCENE_PROMPT in
         scene_response <-
           provider_text_chat session_id system_scene_prompt_text system_prompt ;;
         let scene_text := text_or "欢迎来到游戏世界" scene_response in
         plain_result scene_text ;;
         append_context session_id (mkMessage system system_scene_prompt_text) ;;
         append_context session_id (mkMessage assistant scene_text) ;;
         _generate_options event
     end)
    (fun e => plain_result ("生成场景时出错: " +:+ e)).

(** *** [_generate_story_progression] *)

Definition story_engine_prompt : string :=
  "你是一个视觉小说游戏引擎，能根据用户选择生成优质的Galgame剧情".

(** [f"{system_response_prompt_text}\n玩家选择: {chosen_option_full_text}"]. *)
Definition story_prompt (chosen_option_full_text : string) : string :=
  SYSTEM_RESPONSE_PROMPT +:+ nl +:+ "玩家选择: " +:+ chosen_option_full_text.

(** The request of the continuation call. *)
Definition story_request (e : Env) (c : Conversation)
    (chosen_option_full_text : string) (h : list Message) : ChatRequest :=
  mkChatRequest (story_prompt chosen_option_full_text)
    (_get_system_prompt e (persona_id c) story_engine_prompt) h.

Definition _generate_story_progression (event : Event)
    (choice chosen_option_full_text : string) : M unit :=
  let session_id := unified_msg_origin event in
  try_except
    (conversation <- host_call (lookup_conversation host session_id) ;;
     match conversation with
     | None => plain_result "无法获取对话，请重新开始游戏"
     | Some conversation =>
         system_prompt <-
           get_system_prompt (persona_id conversation) story_engine_prompt ;;
         let prompt := story_prompt chosen_option_full_text in
         story_response <- provider_text_chat session_id prompt system_prompt ;;
         let story_text := text_or "故事继续..." story_response in
         plain_result story_text ;;
         append_context session_id (mkMessage assistant story_text) ;;
         _generate_options event
     end)
    (fun e => plain_result ("生成故事进展时出错: " +:+ e)).

(** *** [_process_user_choice] *)

(** The entry recording the player's choice. *)
Definition choice_entry (chosen_option_full_text : string) : Message :=
  mkMessage user ("用户选择了：" +:+ chosen_option_full_text).

(** [.get(choice)] gives [None] for a missing label; [not text] also holds
    for the empty text. *)
Definition _process_user_choice (event : Event) (choice : string) : M unit :=
  let session_id := unified_msg_origin event in
  try_except
    (s <- session session_id ;;
     match last_options s !! choice with
     | None => plain_result "无法识别您的选择，请重新选择A、B或C"
     | Some chosen_option_full_text =>
         if decide (chosen_option_full_text = "")
         then plain_result "无法识别您的选择，请重新选择A、B或C"
         else
           append_context session_id (choice_entry chosen_option_full_text) ;;
           _generate_story_progression event choice chosen_option_full_text
     end)
    (fun e => plain_result ("处理选择时出错: " +:+ e)).

(** *** The handlers *)

Definition new_session : Session := mkSession true [] ∅.

(** [@filter.command("gal启动")]. *)
Definition handle_start_galgame (event : Event) : M unit :=
  let session_id := unified_msg_origin event in
  active <- is_active session_id ;;
  if (active : bool)
  then plain_result "已经有一个进行中的 gal 游戏，请先使用 'gal关闭' 结束当前游戏"
  else
    put_session session_id new_session ;;
    plain_result "gal已启动" ;;
    _generate_initial_scene event.

(** [@filter.command("gal关闭")]. *)
Definition handle_stop_galgame (event : Event) : M unit :=
  let session_id := unified_msg_origin event in
  active <- is_active session_id ;;
  if negb active
  then plain_result "当前没有进行中的 gal 游戏"
  else
    set_game_active session_id false ;;
    set_llm_context session_id [] ;;
    plain_result "gal已关闭".

(** [@filter.event_message_type(ALL)]. *)
Definition handle_game_input (event : Event) : M unit :=
  let session_id := unified_msg_origin event in
  active <- is_active session_id ;;
  if (active : bool)
  then
    let user_input := str_upper py (str_strip py (message_str event)) in
    if bool_decide (user_input ∈ ["A"; "B"; "C"])
    then
      should_call_llm false ;;
      _process_user_choice event user_input
    else if bool_decide (user_input ∉ ["GAL启动"; "GAL关闭"])
    then stop_event
    else ret tt
  else ret tt.

(** [terminate]: [self.game_sessions.clear()]. *)
Definition terminate : M unit :=
  fun st => (inr tt, mkState ∅ (env st) (results st) (chat_log st)
                             (call_llm st) (stopped st)).

(** *** The contracts of the specification *)

(** Between [st] and [st'] exactly three items were sent, and afterwards
    the session [sid] has an entry for each of the labels A, B and C. *)
Definition three_options_offered (st st' : State Env) (sid : string) : Prop :=
  (exists a b c, results st' = results st ++ [a; b; c]) /\
  exists s', game_sessions st' !! sid = Some s' /\
    is_Some (last_options s' !! "A") /\
    is_Some (last_options s' !! "B") /\
    is_Some (last_options s' !! "C").

(** Between [st] and [st'] a continuation and then exactly three options
    were sent, and the options are what [last_options] now holds. *)
Definition fresh_options_after_story (st st' : State Env) (sid : string) : Prop :=
  exists story a b c s',
    results st' = results st ++ [story; a; b; c] /\
    game_sessions st' !! sid = Some s' /\
    last_options s' = three_options a b c.

(** *** Invariants of the session store *)

(** The test both command handlers and the input handler make: the session
    exists and its ["game_active"] is true. *)
Definition in_game (sessions : gmap string Session) (sid : string) : bool :=
  match sessions !! sid with
  | Some s => game_active s
  | None => false
  end.

(** The labels under which options are stored. *)
Definition labels : gset string := {["A"; "B"; "C"]}.

(** What running a generation phase for the session [sid] may change: no
    other session; the session itself is neither created nor removed, keeps
    its active flag, has its context list extended at the end and gains no
    option label besides A, B and C; items are only added to what was sent and
    to what was asked of the provider; the event's flags stay. *)
Definition advances (sid : string) (st st' : State Env) : Prop :=
  (forall k, k <> sid -> game_sessions st' !! k = game_sessions st !! k) /\
  (game_sessions st !! sid = None -> game_sessions st' !! sid = None) /\
  (forall s, game_sessions st !! sid = Some s ->
     exists s', game_sessions st' !! sid = Some s' /\
       game_active s' = game_active s /\
       llm_context s `prefix_of` llm_context s' /\
       dom (last_options s') ⊆ dom (last_options s) ∪ labels) /\
  results st `prefix_of` results st' /\
  chat_log st `prefix_of` chat_log st' /\
  call_llm st' = call_llm st /\
  stopped st' = stopped st.

(** A computation that only advances the state, whatever it returns. *)
Definition keeps (sid : string) {A} (m : M A) : Prop :=
  forall st, advances sid st (m st).2.

(** The store invariant: options are stored under A, B and C only, and a
    session that is not active has an empty context list. *)
Definition store_ok (sessions : gmap string Session) : Prop :=
  forall sid s, sessions !! sid = Some s ->
    dom (last_options s) ⊆ labels /\
    (game_active s = false -> llm_context s = []).

End Plugin.

(** ** Concrete collaborators, for running the handlers *)

(** A runtime for ASCII text: [strip] removes the ASCII white space at both
    ends, [upper] maps [a..z] to [A..Z], [repr] puts the key in quotes.  It
    agrees with Python on the texts used below. *)
Definition is_space (c : ascii) : bool :=
  let n := nat_of_ascii c in
  (Nat.leb 9 n && Nat.leb n 13) || (Nat.leb 28 n && Nat.leb n 32).

Fixpoint lstrip (s : string) : string :=
  match s with
  | String c s' => if is_space c then lstrip s' else s
  | EmptyString => EmptyString
  end.

Fixpoint rstrip (s : string) : string :=
  match s with
  | String c s' =>
      match rstrip s' with
      | EmptyString => if is_space c then EmptyString else String c EmptyString
      | r => String c r
      end
  | EmptyString => EmptyString
  end.

Definition upper_ascii (c : ascii) : ascii :=
  let n := nat_of_ascii c in
  if Nat.leb 97 n && Nat.leb n 122 then ascii_of_nat (n - 32) else c.

Fixpoint upper (s : string) : string :=
  match s with
  | String c s' => String (upper_ascii c) (upper s')
  | EmptyString => EmptyString
  end.

Definition ascii_builtins : Builtins :=
  mkBuiltins (fun s => rstrip (lstrip s)) upper (fun s => "'" +:+ s +:+ "'").

(** A host whose conversation has no persona and whose provider answers the
    successive [text_chat] calls from a script. *)
Definition scripted_host : Host (list (string + Response)) :=
  mkHost _
    (fun _ e => (inr (Some (mkConversation None)), e))
    (fun e => (inr tt, e))
    (fun _ => inr None)
    (fun _ => inr [])
    (fun e => (inr tt, e))
    (fun _ e =>
       match e with
       | o :: e' => (o, e')
       | [] => (inl "provider exhausted", [])
       end).

Definition says (text : string) : string + Response := inr (mkResponse (Some text)).
Definition fails (detail : string) : string + Response := inl detail.

(** A state in which only the given sessions exist and nothing was sent. *)
Definition idle {Env} (sessions : gmap string Session) (e : Env) : State Env :=
  mkState sessions e [] [] true false.

Definition ev (text : string) : Event := mkEvent "room" text.

(** A running game in the room ["room"]: one scene told, three options on
    offer. *)
Definition offered : gmap string string := three_options "A - a" "B - b" "C - c".
Definition told : list Message := [mkMessage assistant "scene"].
Definition running : Session := mkSession true told offered.
Definition talk : Conversation := mkConversation None.

(** The state before a message is handled, with the provider's script. *)
Definition before (s : Session) (script : list (string + Response))
  : State (list (string + Response)) :=
  mkState {["room" := s]} script [] [] true false.

Definition silent : string + Response := inr (mkResponse None).

(** The scripted host with the given default persona and registered
    personas (left: reading the attribute raises). *)
Definition staffed_host (default_persona : string + option Persona)
    (registered : string + list Persona) : Host (list (string + Response)) :=
  mkHost _
    (lookup_conversation scripted_host)
    (get_llm_tool_manager scripted_host)
    (fun _ => default_persona)
    (fun _ => registered)
    (get_using_provider scripted_host)
    (text_chat scripted_host).

(** The scripted host when the conversation manager has no conversation. *)
Definition lost_host : Host (list (string + Response)) :=
  mkHost _
    (fun _ e => (inr None, e))
    (get_llm_tool_manager scripted_host)
    (selected_default_persona scripted_host)
    (personas scripted_host)
    (get_using_provider scripted_host)
    (text_chat scripted_host).

(** Two registered personas with the same id, and one without a prompt. *)
Definition alice : Persona := <["prompt" := "You are Alice."]> (<["id" := "alice"]> ∅).
Definition alice2 : Persona := <["prompt" := "You are another Alice."]> (<["id" := "alice"]> ∅).
Definition bob : Persona := <["id" := "bob"]> ∅.

(** ** Running the phases *)

Section Phases.
Context {Env : Type}.
Variable host : Host Env.
Variable py : Builtins.
Variable config : gmap string string.

Implicit Types (gs : gmap string Session) (e : Env) (rs : list string)
  (log : list ChatRequest) (cl stp : bool) (sid : string) (s : Session).

(** *** The monad *)

Lemma bind_inr {A B} (m : Run.M Env A) (k : A -> Run.M Env B) st a st' :
  m st = (inr a, st') -> bind m k st = k a st'.
Proof. unfold bind. now intros ->. Qed.

Lemma bind_inl {A B} (m : Run.M Env A) (k : A -> Run.M Env B) st x st' :
  m st = (inl x, st') -> bind m k st = (inl x, st').
Proof. unfold bind. now intros ->. Qed.

Lemma try_inr {A} (body : Run.M Env A) handler st a st' :
  body st = (inr a, st') -> try_except body handler st = (inr a, st').
Proof. unfold try_except. now intros ->. Qed.

Lemma try_inl {A} (body : Run.M Env A) handler st x st' :
  body st = (inl x, st') -> try_except body handler st = handler x st'.
Proof. unfold try_except. now intros ->. Qed.

(** *** The primitive steps *)

Lemma run_session gs e rs log cl stp sid s :
  gs !! sid = Some s ->
  session py sid (mkState gs e rs log cl stp) = (inr s, mkState gs e rs log cl stp).
Proof. unfold session. cbn [game_sessions]. now intros ->. Qed.

Lemma run_session_missing gs e rs log cl stp sid :
  gs !! sid = None ->
  session py sid (mkState gs e rs log cl stp)
  = (inl (repr py sid), mkState gs e rs log cl stp).
Proof. unfold session. cbn [game_sessions]. now intros ->. Qed.

Lemma run_set_game_active gs e rs log cl stp sid s b :
  gs !! sid = Some s ->
  set_game_active py sid b (mkState gs e rs log cl stp)
  = (inr tt, mkState (<[sid := mkSession b (llm_context s) (last_options s)]> gs)
               e rs log cl stp).
Proof.
  intros Hs. unfold set_game_active.
  now rewrite (bind_inr _ _ _ _ _ (run_session _ _ _ _ _ _ _ _ Hs)).
Qed.

Lemma run_set_llm_context gs e rs log cl stp sid s l :
  gs !! sid = Some s ->
  set_llm_context py sid l (mkState gs e rs log cl stp)
  = (inr tt, mkState (<[sid := mkSession (game_active s) l (last_options s)]> gs)
               e rs log cl stp).
Proof.
  intros Hs. unfold set_llm_context.
  now rewrite (bind_inr _ _ _ _ _ (run_session _ _ _ _ _ _ _ _ Hs)).
Qed.

Lemma run_append_context gs e rs log cl stp sid s m :
  gs !! sid = Some s ->
  append_context py sid m (mkState gs e rs log cl stp)
  = (inr tt,
     mkState (<[sid := mkSession (game_active s) (llm_context s ++ [m]) (last_options s)]> gs)
       e rs log cl stp).
Proof.
  intros Hs. unfold append_context.
  now rewrite (bind_inr _ _ _ _ _ (run_session _ _ _ _ _ _ _ _ Hs)).
Qed.

Lemma run_set_last_options gs e rs log cl stp sid s o :
  gs !! sid = Some s ->
  set_last_options py sid o (mkState gs e rs log cl stp)
  = (inr tt, mkState (<[sid := mkSession (game_active s) (llm_context s) o]> gs)
               e rs log cl stp).
Proof.
  intros Hs. unfold set_last_options.
  now rewrite (bind_inr _ _ _ _ _ (run_session _ _ _ _ _ _ _ _ Hs)).
Qed.

Lemma run_store_option gs e rs log cl stp sid s label text :
  gs !! sid = Some s ->
  store_option py sid label text (mkState gs e rs log cl stp)
  = (inr tt,
     mkState (<[sid := mkSession (game_active s) (llm_context s)
                         (<[label := text]> (last_options s))]> gs)
       e rs log cl stp).
Proof.
  intros Hs. unfold store_option.
  now rewrite (bind_inr _ _ _ _ _ (run_session _ _ _ _ _ _ _ _ Hs)).
Qed.

Lemma run_host_call {A} (f : Env -> (string + A) * Env) gs e rs log cl stp r e' :
  f e = (r, e') ->
  host_call f (mkState gs e rs log cl stp) = (r, mkState gs e' rs log cl stp).
Proof. unfold host_call. cbn [env]. now intros ->. Qed.

Lemma run_is_active gs e rs log cl stp sid :
  is_active sid (mkState gs e rs log cl stp)
  = (inr match gs !! sid with Some s => game_active s | None => false end,
     mkState gs e rs log cl stp).
Proof. reflexivity. Qed.

Lemma run_plain_result gs e rs log cl stp text :
  plain_result text (mkState gs e rs log cl stp)
  = (inr tt, mkState gs e (rs ++ [text]) log cl stp).
Proof. reflexivity. Qed.

Lemma run_get_system_prompt gs e rs log cl stp persona dflt :
  get_system_prompt host persona dflt (mkState gs e rs log cl stp)
  = (inr (_get_system_prompt host e persona dflt), mkState gs e rs log cl stp).
Proof. reflexivity. Qed.

(** A provider call that returns is logged with the session's context list. *)
Lemma run_provider_returns gs e rs log cl stp sid s p sp r e' :
  gs !! sid = Some s ->
  call_provider host (mkChatRequest p sp (llm_context s)) e = (inr r, e') ->
  provider_text_chat host py sid p sp (mkState gs e rs log cl stp)
  = (inr r, mkState gs e' rs (log ++ [mkChatRequest p sp (llm_context s)]) cl stp).
Proof.
  intros Hs Hcall. unfold provider_text_chat, call_provider in *.
  destruct (get_using_provider host e) as [[d|u] e1] eqn:Hp; [discriminate|].
  rewrite (bind_inr _ _ _ _ _ (run_host_call _ _ _ _ _ _ _ _ _ Hp)).
  rewrite (bind_inr _ _ _ _ _ (run_session _ _ _ _ _ _ _ _ Hs)).
  unfold chat. cbn [env game_sessions results chat_log call_llm stopped].
  now rewrite Hcall.
Qed.

(** A provider call that raises is logged when [text_chat] was reached. *)
Lemma run_provider_raises gs e rs log cl stp sid s p sp d e' :
  gs !! sid = Some s ->
  call_provider host (mkChatRequest p sp (llm_context s)) e = (inl d, e') ->
  exists n, (n <= 1)%nat /\
    provider_text_chat host py sid p sp (mkState gs e rs log cl stp)
    = (inl d, mkState gs e' rs (log ++ take n [mkChatRequest p sp (llm_context s)]) cl stp).
Proof.
  intros Hs Hcall. unfold provider_text_chat, call_provider in *.
  destruct (get_using_provider host e) as [[d'|u] e1] eqn:Hp.
  - injection Hcall as -> ->. exists 0. split; [lia|].
    rewrite (bind_inl _ _ _ _ _ (run_host_call _ _ _ _ _ _ _ _ _ Hp)).
    cbn [take]. now rewrite app_nil_r.
  - exists 1. split; [lia|].
    rewrite (bind_inr _ _ _ _ _ (run_host_call _ _ _ _ _ _ _ _ _ Hp)).
    rewrite (bind_inr _ _ _ _ _ (run_session _ _ _ _ _ _ _ _ Hs)).
    unfold chat. cbn [env game_sessions results chat_log call_llm stopped take].
    now rewrite Hcall.
Qed.

(** *** [_generate_options] *)

Ltac norm :=
  cbv beta iota zeta;
  cbn [game_active llm_context last_options unified_msg_origin message_str];
  rewrite ?insert_insert_eq.

Ltac find_session := first [ eassumption | apply lookup_insert_eq ].

Ltac returns lem :=
  erewrite bind_inr by (eapply lem; find_session); norm.

Abbreviation req_a h := (option_request (OPTION_A_PROMPT config) h).
Abbreviation req_b h := (option_request (OPTION_B_PROMPT config) h).
Abbreviation req_c h := (option_request (OPTION_C_PROMPT config) h).
Abbreviation text_a r := (text_or option_a_fallback r).
Abbreviation text_b r := (text_or option_b_fallback r).
Abbreviation text_c r := (text_or option_c_fallback r).
Abbreviation options_notice detail := ("生成选项时出错: " +:+ detail).

(** Without a conversation nothing is asked of the provider and the session
    is left alone. *)
Lemma generate_options_no_conversation gs e rs log cl stp event e0 :
  lookup_conversation host (unified_msg_origin event) e = (inr None, e0) ->
  _generate_options host py config event (mkState gs e rs log cl stp)
  = (inr tt, mkState gs e0 (rs ++ ["无法获取对话，请重新开始游戏"]) log cl stp).
Proof.
  intros Hc. unfold _generate_options. apply try_inr.
  erewrite bind_inr by (apply run_host_call; exact Hc).
  reflexivity.
Qed.

(** The same when the conversation lookup raises, with the phase's notice. *)
Lemma generate_options_lookup_raises gs e rs log cl stp event d e0 :
  lookup_conversation host (unified_msg_origin event) e = (inl d, e0) ->
  _generate_options host py config event (mkState gs e rs log cl stp)
  = (inr tt, mkState gs e0 (rs ++ [options_notice d]) log cl stp).
Proof.
  intros Hc. unfold _generate_options. cbv zeta.
  erewrite try_inl by (erewrite bind_inl by (apply run_host_call; exact Hc);
                       reflexivity).
  reflexivity.
Qed.

(** All three provider calls return. *)
Lemma generate_options_complete gs e rs log cl stp event s c e0 ra e1 rb e2 rc e3 :
  let sid := unified_msg_origin event in
  let h := llm_context s in
  gs !! sid = Some s ->
  lookup_conversation host sid e = (inr (Some c), e0) ->
  call_provider host (req_a h) e0 = (inr ra, e1) ->
  call_provider host (req_b h) e1 = (inr rb, e2) ->
  call_provider host (req_c h) e2 = (inr rc, e3) ->
  _generate_options host py config event (mkState gs e rs log cl stp)
  = (inr tt,
     mkState
       (<[sid := mkSession (game_active s)
                   (h ++ [options_summary (text_a ra) (text_b rb) (text_c rc)])
                   (three_options (text_a ra) (text_b rb) (text_c rc))]> gs)
       e3 (rs ++ [text_a ra; text_b rb; text_c rc])
       (log ++ [req_a h; req_b h; req_c h]) cl stp).
Proof.
  intros sid h Hs Hc HA HB HC. subst sid h.
  unfold _generate_options. cbv zeta. apply try_inr.
  erewrite bind_inr by (apply run_host_call; exact Hc). norm.
  returns run_set_last_options.
  erewrite bind_inr by (eapply run_provider_returns; [find_session | exact HA]); norm.
  returns run_store_option.
  erewrite bind_inr by apply run_plain_result.
  erewrite bind_inr by (eapply run_provider_returns; [find_session | exact HB]); norm.
  returns run_store_option.
  erewrite bind_inr by apply run_plain_result.
  erewrite bind_inr by (eapply run_provider_returns; [find_session | exact HC]); norm.
  returns run_store_option.
  erewrite bind_inr by apply run_plain_result.
  erewrite run_append_context by find_session. norm.
  rewrite <- !app_assoc. reflexivity.
Qed.

(** The first provider call raises: nothing is offered. *)
Lemma generate_options_a_raises gs e rs log cl stp event s c e0 d e1 :
  let sid := unified_msg_origin event in
  let h := llm_context s in
  gs !! sid = Some s ->
  lookup_conversation host sid e = (inr (Some c), e0) ->
  call_provider host (req_a h) e0 = (inl d, e1) ->
  exists n, (n <= 1)%nat /\
    _generate_options host py config event (mkState gs e rs log cl stp)
    = (inr tt,
       mkState (<[sid := mkSession (game_active s) h ∅]> gs) e1
         (rs ++ [options_notice d]) (log ++ take n [req_a h]) cl stp).
Proof.
  intros sid h Hs Hc HA. subst sid h.
  destruct (run_provider_raises
              (<[unified_msg_origin event := mkSession (game_active s) (llm_context s) ∅]> gs)
              e0 rs log cl stp (unified_msg_origin event) _
              (OPTION_A_PROMPT config) fixed_system_prompt d e1
              (lookup_insert_eq _ _ _) HA) as (n & Hn & Hrun).
  exists n. split; [exact Hn|].
  unfold _generate_options. cbv zeta.
  eapply eq_trans; [eapply try_inl | ].
  - erewrite bind_inr by (apply run_host_call; exact Hc). norm.
    returns run_set_last_options.
    erewrite bind_inl by exact Hrun. reflexivity.
  - reflexivity.
Qed.

(** The second provider call raises: only A was offered and stored. *)
Lemma generate_options_b_raises gs e rs log cl stp event s c e0 ra e1 d e2 :
  let sid := unified_msg_origin event in
  let h := llm_context s in
  gs !! sid = Some s ->
  lookup_conversation host sid e = (inr (Some c), e0) ->
  call_provider host (req_a h) e0 = (inr ra, e1) ->
  call_provider host (req_b h) e1 = (inl d, e2) ->
  exists n, (n <= 1)%nat /\
    _generate_options host py config event (mkState gs e rs log cl stp)
    = (inr tt,
       mkState (<[sid := mkSession (game_active s) h (<["A" := text_a ra]> ∅)]> gs) e2
         (rs ++ [text_a ra; options_notice d])
         (log ++ req_a h :: take n [req_b h]) cl stp).
Proof.
  intros sid h Hs Hc HA HB. subst sid h.
  destruct (run_provider_raises
              (<[unified_msg_origin event :=
                   mkSession (game_active s) (llm_context s) (<["A" := text_a ra]> ∅)]> gs)
              e1 (rs ++ [text_a ra]) (log ++ [req_a (llm_context s)]) cl stp
              (unified_msg_origin event) _
              (OPTION_B_PROMPT config) fixed_system_prompt d e2
              (lookup_insert_eq _ _ _) HB) as (n & Hn & Hrun).
  exists n. split; [exact Hn|].
  unfold _generate_options. cbv zeta.
  eapply eq_trans; [eapply try_inl | ].
  - erewrite bind_inr by (apply run_host_call; exact Hc). norm.
    returns run_set_last_options.
    erewrite bind_inr by (eapply run_provider_returns; [find_session | exact HA]); norm.
    returns run_store_option.
    erewrite bind_inr by apply run_plain_result.
    erewrite bind_inl by exact Hrun. reflexivity.
  - rewrite run_plain_result. now rewrite <- !app_assoc.
Qed.

(** The third provider call raises: A and B were offered and stored. *)
Lemma generate_options_c_raises gs e rs log cl stp event s c e0 ra e1 rb e2 d e3 :
  let sid := unified_msg_origin event in
  let h := llm_context s in
  gs !! sid = Some s ->
  lookup_conversation host sid e = (inr (Some c), e0) ->
  call_provider host (req_a h) e0 = (inr ra, e1) ->
  call_provider host (req_b h) e1 = (inr rb, e2) ->
  call_provider host (req_c h) e2 = (inl d, e3) ->
  exists n, (n <= 1)%nat /\
    _generate_options host py config event (mkState gs e rs log cl stp)
    = (inr tt,
       mkState
         (<[sid := mkSession (game_active s) h
                     (<["B" := text_b rb]> (<["A" := text_a ra]> ∅))]> gs) e3
         (rs ++ [text_a ra; text_b rb; options_notice d])
         (log ++ req_a h :: req_b h :: take n [req_c h]) cl stp).
Proof.
  intros sid h Hs Hc HA HB HC. subst sid h.
  destruct (run_provider_raises
              (<[unified_msg_origin event :=
                   mkSession (game_active s) (llm_context s)
                     (<["B" := text_b rb]> (<["A" := text_a ra]> ∅))]> gs)
              e2 ((rs ++ [text_a ra]) ++ [text_b rb])
              ((log ++ [req_a (llm_context s)]) ++ [req_b (llm_context s)]) cl stp
              (unified_msg_origin event) _
              (OPTION_C_PROMPT config) fixed_system_prompt d e3
              (lookup_insert_eq _ _ _) HC) as (n & Hn & Hrun).
  exists n. split; [exact Hn|].
  unfold _generate_options. cbv zeta.
  eapply eq_trans; [eapply try_inl | ].
  - erewrite bind_inr by (apply run_host_call; exact Hc). norm.
    returns run_set_last_options.
    erewrite bind_inr by (eapply run_provider_returns; [find_session | exact HA]); norm.
    returns run_store_option.
    erewrite bind_inr by apply run_plain_result.
    erewrite bind_inr by (eapply run_provider_returns; [find_session | exact HB]); norm.
    returns run_store_option.
    erewrite bind_inr by apply run_plain_result.
    erewrite bind_inl by exact Hrun. reflexivity.
  - rewrite run_plain_result. now rewrite <- !app_assoc.
Qed.

(** *** Phases never raise *)

(** A phase is a [try] whose handler yields a notice, so it returns. *)
Lemma try_notice_returns (body : Run.M Env unit) (notice : string -> string) st :
  exists st', try_except body (fun x => plain_result (notice x)) st = (inr tt, st').
Proof.
  unfold try_except. destruct (body st) as [[x|[]] st1]; eauto.
Qed.

Lemma generate_options_returns event st :
  exists st', _generate_options host py config event st = (inr tt, st').
Proof. apply try_notice_returns. Qed.

Lemma generate_story_progression_returns event choice text st :
  exists st',
    _generate_story_progression host py config event choice text st = (inr tt, st').
Proof. apply try_notice_returns. Qed.

(** *** [_generate_story_progression] *)

Abbreviation story_notice detail := ("生成故事进展时出错: " +:+ detail).

Lemma story_progression_raises gs e rs log cl stp event choice text s c e0 d e1 :
  let sid := unified_msg_origin event in
  gs !! sid = Some s ->
  lookup_conversation host sid e = (inr (Some c), e0) ->
  call_provider host (story_request host config e0 c text (llm_context s)) e0
  = (inl d, e1) ->
  exists n, (n <= 1)%nat /\
    _generate_story_progression host py config event choice text
      (mkState gs e rs log cl stp)
    = (inr tt,
       mkState gs e1 (rs ++ [story_notice d])
         (log ++ take n [story_request host config e0 c text (llm_context s)]) cl stp).
Proof.
  intros sid Hs Hc Hcall. subst sid.
  destruct (run_provider_raises gs e0 rs log cl stp (unified_msg_origin event) s
              (story_prompt config text)
              (_get_system_prompt host e0 (persona_id c) story_engine_prompt)
              d e1 Hs Hcall) as (n & Hn & Hrun).
  exists n. split; [exact Hn|].
  unfold _generate_story_progression. cbv zeta.
  eapply eq_trans; [eapply try_inl | ].
  - erewrite bind_inr by (apply run_host_call; exact Hc). norm.
    erewrite bind_inr by apply run_get_system_prompt.
    erewrite bind_inl by exact Hrun. reflexivity.
  - reflexivity.
Qed.

Lemma story_progression_continues gs e rs log cl stp event choice text s c e0 r e1 :
  let sid := unified_msg_origin event in
  let h := llm_context s in
  let story := text_or "故事继续..." r in
  gs !! sid = Some s ->
  lookup_conversation host sid e = (inr (Some c), e0) ->
  call_provider host (story_request host config e0 c text h) e0 = (inr r, e1) ->
  _generate_story_progression host py config event choice text
    (mkState gs e rs log cl stp)
  = _generate_options host py config event
      (mkState
         (<[sid := mkSession (game_active s) (h ++ [mkMessage assistant story])
                     (last_options s)]> gs)
         e1 (rs ++ [story]) (log ++ [story_request host config e0 c text h]) cl stp).
Proof.
  intros sid h story Hs Hc Hcall. subst sid h story.
  match goal with
  | |- _ = _generate_options _ _ _ _ ?mid =>
      destruct (generate_options_returns event mid) as [st' Hopt]; rewrite Hopt
  end.
  unfold _generate_story_progression. cbv zeta. apply try_inr.
  erewrite bind_inr by (apply run_host_call; exact Hc). norm.
  erewrite bind_inr by apply run_get_system_prompt.
  erewrite bind_inr by (eapply run_provider_returns; [find_session | exact Hcall]); norm.
  erewrite bind_inr by apply run_plain_result.
  returns run_append_context.
  exact Hopt.
Qed.

(** *** [_process_user_choice] *)

Abbreviation choice_notice := "无法识别您的选择，请重新选择A、B或C".

Lemma process_user_choice_unknown gs e rs log cl stp event choice s :
  gs !! unified_msg_origin event = Some s ->
  last_options s !! choice = None \/ last_options s !! choice = Some "" ->
  _process_user_choice host py config event choice (mkState gs e rs log cl stp)
  = (inr tt, mkState gs e (rs ++ [choice_notice]) log cl stp).
Proof.
  intros Hs Hl. unfold _process_user_choice. cbv zeta. apply try_inr.
  erewrite bind_inr by (eapply run_session; exact Hs).
  destruct Hl as [-> | ->]; reflexivity.
Qed.

Lemma process_user_choice_valid gs e rs log cl stp event choice s text :
  let sid := unified_msg_origin event in
  gs !! sid = Some s ->
  last_options s !! choice = Some text ->
  text <> "" ->
  _process_user_choice host py config event choice (mkState gs e rs log cl stp)
  = _generate_story_progression host py config event choice text
      (mkState
         (<[sid := mkSession (game_active s) (llm_context s ++ [choice_entry text])
                     (last_options s)]> gs)
         e rs log cl stp).
Proof.
  intros sid Hs Hl Hne. subst sid.
  match goal with
  | |- _ = _generate_story_progression _ _ _ _ _ _ ?mid =>
      destruct (generate_story_progression_returns event choice text mid)
        as [st' Hstory]; rewrite Hstory
  end.
  unfold _process_user_choice. cbv zeta. apply try_inr.
  erewrite bind_inr by (eapply run_session; exact Hs).
  rewrite Hl. destruct (decide (text = "")) as [|_]; [contradiction|].
  returns run_append_context.
  exact Hstory.
Qed.

(** *** [_generate_initial_scene] *)

Abbreviation scene_notice detail := ("生成场景时出错: " +:+ detail).

Lemma initial_scene_raises gs e rs log cl stp event s c e0 u e1 d e2 :
  let sid := unified_msg_origin event in
  gs !! sid = Some s ->
  lookup_conversation host sid e = (inr (Some c), e0) ->
  get_llm_tool_manager host e0 = (inr u, e1) ->
  call_provider host (scene_request host config e1 c (llm_context s)) e1
  = (inl d, e2) ->
  exists n, (n <= 1)%nat /\
    _generate_initial_scene host py config event (mkState gs e rs log cl stp)
    = (inr tt,
       mkState gs e2 (rs ++ [scene_notice d])
         (log ++ take n [scene_request host config e1 c (llm_context s)]) cl stp).
Proof.
  intros sid Hs Hc Ht Hcall. subst sid.
  destruct (run_provider_raises gs e1 rs log cl stp (unified_msg_origin event) s
              (SYSTEM_SCENE_PROMPT config)
              (_get_system_prompt host e1 (persona_id c) scene_engine_prompt)
              d e2 Hs Hcall) as (n & Hn & Hrun).
  exists n. split; [exact Hn|].
  unfold _generate_initial_scene. cbv zeta.
  eapply eq_trans; [eapply try_inl | ].
  - erewrite bind_inr by (apply run_host_call; exact Hc). norm.
    erewrite bind_inr by (apply run_host_call; exact Ht).
    erewrite bind_inr by apply run_get_system_prompt.
    erewrite bind_inl by exact Hrun. reflexivity.
  - reflexivity.
Qed.

Lemma initial_scene_continues gs e rs log cl stp event s c e0 u e1 r e2 :
  let sid := unified_msg_origin event in
  let h := llm_context s in
  let scene := text_or "欢迎来到游戏世界" r in
  gs !! sid = Some s ->
  lookup_conversation host sid e = (inr (Some c), e0) ->
  get_llm_tool_manager host e0 = (inr u, e1) ->
  call_provider host (scene_request host config e1 c h) e1 = (inr r, e2) ->
  _generate_initial_scene host py config event (mkState gs e rs log cl stp)
  = _generate_options host py config event
      (mkState
         (<[sid := mkSession (game_active s)
                     (h ++ [mkMessage system (SYSTEM_SCENE_PROMPT config);
                            mkMessage assistant scene])
                     (last_options s)]> gs)
         e2 (rs ++ [scene]) (log ++ [scene_request host config e1 c h]) cl stp).
Proof.
  intros sid h scene Hs Hc Ht Hcall. subst sid h scene.
  match goal with
  | |- _ = _generate_options _ _ _ _ ?mid =>
      destruct (generate_options_returns event mid) as [st' Hopt]; rewrite Hopt
  end.
  unfold _generate_initial_scene. cbv zeta. apply try_inr.
  erewrite bind_inr by (apply run_host_call; exact Hc). norm.
  erewrite bind_inr by (apply run_host_call; exact Ht).
  erewrite bind_inr by apply run_get_system_prompt.
  erewrite bind_inr by (eapply run_provider_returns; [find_session | exact Hcall]); norm.
  erewrite bind_inr by apply run_plain_result.
  returns run_append_context.
  returns run_append_context.
  rewrite <- app_assoc. exact Hopt.
Qed.

(** ** Properties of option generation *)

(** C1, as the code has it.  On a session whose conversation is found,
    [_generate_options] sends exactly three option items and leaves entries
    for A, B and C in [last_options] when all three provider calls return; the
    text of a response without [completion_text] is the built-in fallback of
    its label.  A provider call that raises is not masked: the options of the
    calls that returned before it are sent and stored, then one notice with
    the error detail is sent and no further option is produced. *)
Theorem generate_options_offers event st s c e0 :
  let sid := unified_msg_origin event in
  let h := llm_context s in
  let st' := (_generate_options host py config event st).2 in
  let stored := last_options <$> game_sessions st' !! sid in
  game_sessions st !! sid = Some s ->
  lookup_conversation host sid (env st) = (inr (Some c), e0) ->
  (exists ra e1 rb e2 rc e3,
      call_provider host (req_a h) e0 = (inr ra, e1) /\
      call_provider host (req_b h) e1 = (inr rb, e2) /\
      call_provider host (req_c h) e2 = (inr rc, e3) /\
      results st' = results st ++ [text_a ra; text_b rb; text_c rc] /\
      stored = Some (three_options (text_a ra) (text_b rb) (text_c rc)) /\
      three_options_offered st st' sid)
  \/ (exists d e1,
      call_provider host (req_a h) e0 = (inl d, e1) /\
      results st' = results st ++ [options_notice d] /\
      stored = Some ∅)
  \/ (exists ra e1 d e2,
      call_provider host (req_a h) e0 = (inr ra, e1) /\
      call_provider host (req_b h) e1 = (inl d, e2) /\
      results st' = results st ++ [text_a ra; options_notice d] /\
      stored = Some (<["A" := text_a ra]> ∅))
  \/ (exists ra e1 rb e2 d e3,
      call_provider host (req_a h) e0 = (inr ra, e1) /\
      call_provider host (req_b h) e1 = (inr rb, e2) /\
      call_provider host (req_c h) e2 = (inl d, e3) /\
      results st' = results st ++ [text_a ra; text_b rb; options_notice d] /\
      stored = Some (<["B" := text_b rb]> (<["A" := text_a ra]> ∅))).
Proof.
  intros sid h st' stored Hs Hc. subst st' stored.
  destruct st as [gs e rs log cl stp]. cbn [game_sessions env results] in *.
  destruct (call_provider host (req_a h) e0) as [[d|ra] e1] eqn:HA.
  { right; left. exists d, e1.
    destruct (generate_options_a_raises gs e rs log cl stp event s c e0 d e1 Hs Hc HA)
      as (n & _ & ->).
    cbn [snd game_sessions results]. fold sid. rewrite lookup_insert_eq. auto. }
  destruct (call_provider host (req_b h) e1) as [[d|rb] e2] eqn:HB.
  { right; right; left. exists ra, e1, d, e2.
    destruct (generate_options_b_raises gs e rs log cl stp event s c e0 ra e1 d e2
                Hs Hc HA HB) as (n & _ & ->).
    cbn [snd game_sessions results]. fold sid. rewrite lookup_insert_eq. auto. }
  destruct (call_provider host (req_c h) e2) as [[d|rc] e3] eqn:HC.
  { right; right; right. exists ra, e1, rb, e2, d, e3.
    destruct (generate_options_c_raises gs e rs log cl stp event s c e0 ra e1 rb e2 d e3
                Hs Hc HA HB HC) as (n & _ & ->).
    cbn [snd game_sessions results]. fold sid. rewrite lookup_insert_eq. auto. }
  left. exists ra, e1, rb, e2, rc, e3.
  rewrite (generate_options_complete gs e rs log cl stp event s c e0 ra e1 rb e2 rc e3
             Hs Hc HA HB HC).
  cbn [snd game_sessions results]. fold sid. rewrite lookup_insert_eq.
  repeat split; auto.
  - eauto.
  - eexists. split; [apply lookup_insert_eq|].
    cbn [last_options]. unfold three_options.
    repeat split.
    + rewrite lookup_insert_ne by discriminate.
      rewrite lookup_insert_ne by discriminate.
      rewrite lookup_insert_eq. eauto.
    + rewrite lookup_insert_ne by discriminate.
      rewrite lookup_insert_eq. eauto.
    + rewrite lookup_insert_eq. eauto.
Qed.

(** C5.  On a session whose conversation is found, the requests that
    [_generate_options] hands to [text_chat] are an initial part of: the A
    request, the B request, the C request, each carrying the context list as
    it was before the phase.  The context list is extended only when all three
    calls have returned, and then by the single assistant entry
    ["提供的选项：\n<A>\n<B>\n<C>"] of the three texts; when a call raises it
    is left as it was. *)
Theorem options_share_history event st s c e0 :
  let sid := unified_msg_origin event in
  let h := llm_context s in
  let st' := (_generate_options host py config event st).2 in
  game_sessions st !! sid = Some s ->
  lookup_conversation host sid (env st) = (inr (Some c), e0) ->
  exists n s',
    chat_log st' = chat_log st ++ take n [req_a h; req_b h; req_c h] /\
    game_sessions st' !! sid = Some s' /\
    ((exists ra e1 rb e2 rc e3,
        call_provider host (req_a h) e0 = (inr ra, e1) /\
        call_provider host (req_b h) e1 = (inr rb, e2) /\
        call_provider host (req_c h) e2 = (inr rc, e3) /\
        n = 3 /\
        llm_context s' =
          h ++ [mkMessage assistant
                  ("提供的选项：" +:+ nl +:+ text_a ra +:+ nl +:+ text_b rb
                     +:+ nl +:+ text_c rc)])
     \/ (llm_context s' = h /\
         ((exists d e1, call_provider host (req_a h) e0 = (inl d, e1))
          \/ (exists ra e1 d e2,
                call_provider host (req_a h) e0 = (inr ra, e1) /\
                call_provider host (req_b h) e1 = (inl d, e2))
          \/ (exists ra e1 rb e2 d e3,
                call_provider host (req_a h) e0 = (inr ra, e1) /\
                call_provider host (req_b h) e1 = (inr rb, e2) /\
                call_provider host (req_c h) e2 = (inl d, e3))))).
Proof.
  intros sid h st' Hs Hc. subst st'.
  destruct st as [gs e rs log cl stp]. cbn [game_sessions env chat_log] in *.
  destruct (call_provider host (req_a h) e0) as [[d|ra] e1] eqn:HA.
  { destruct (generate_options_a_raises gs e rs log cl stp event s c e0 d e1 Hs Hc HA)
      as (n & Hn & ->).
    exists n. eexists. cbn [snd game_sessions chat_log]. fold sid h.
    split; [|split; [apply lookup_insert_eq|]].
    - destruct n as [|[|n]]; [reflexivity | reflexivity | lia].
    - right. cbn [llm_context]. split; [reflexivity|]. left. eauto. }
  destruct (call_provider host (req_b h) e1) as [[d|rb] e2] eqn:HB.
  { destruct (generate_options_b_raises gs e rs log cl stp event s c e0 ra e1 d e2
                Hs Hc HA HB) as (n & Hn & ->).
    exists (S n). eexists. cbn [snd game_sessions chat_log]. fold sid h.
    split; [|split; [apply lookup_insert_eq|]].
    - destruct n as [|[|n]]; [reflexivity | reflexivity | lia].
    - right. cbn [llm_context]. split; [reflexivity|]. right; left.
      exists ra, e1, d, e2. auto. }
  destruct (call_provider host (req_c h) e2) as [[d|rc] e3] eqn:HC.
  { destruct (generate_options_c_raises gs e rs log cl stp event s c e0 ra e1 rb e2 d e3
                Hs Hc HA HB HC) as (n & Hn & ->).
    exists (S (S n)). eexists. cbn [snd game_sessions chat_log]. fold sid h.
    split; [|split; [apply lookup_insert_eq|]].
    - destruct n as [|[|n]]; [reflexivity | reflexivity | lia].
    - right. cbn [llm_context]. split; [reflexivity|]. right; right.
      exists ra, e1, rb, e2, d, e3. auto. }
  rewrite (generate_options_complete gs e rs log cl stp event s c e0 ra e1 rb e2 rc e3
             Hs Hc HA HB HC).
  exists 3. eexists. cbn [snd game_sessions chat_log]. fold sid h.
  split; [reflexivity|]. split; [apply lookup_insert_eq|].
  left. exists ra, e1, rb, e2, rc, e3. cbn [llm_context]. auto.
Qed.

(** ** Properties of the opening scene *)

(** C2.  When the provider call of [_generate_initial_scene] raises, the
    phase sends exactly one item, the notice ["生成场景时出错: <detail>"], and
    returns.  The session store is left as it was, so the session start has
    just created stays active with an empty context list and its
    [last_options] is not reset; at most the scene request reached
    [text_chat], no option request did. *)
Theorem opening_scene_failure event st s c e0 u e1 d e2 :
  let sid := unified_msg_origin event in
  let st' := (_generate_initial_scene host py config event st).2 in
  let request := scene_request host config e1 c (llm_context s) in
  game_sessions st !! sid = Some s ->
  lookup_conversation host sid (env st) = (inr (Some c), e0) ->
  get_llm_tool_manager host e0 = (inr u, e1) ->
  call_provider host request e1 = (inl d, e2) ->
  (_generate_initial_scene host py config event st).1 = inr tt /\
  results st' = results st ++ ["生成场景时出错: " +:+ d] /\
  game_sessions st' = game_sessions st /\
  game_sessions st' !! sid = Some s /\
  exists n, (n <= 1)%nat /\ chat_log st' = chat_log st ++ take n [request].
Proof.
  intros sid st' request Hs Hc Ht Hcall. subst st' request.
  destruct st as [gs e rs log cl stp]. cbn [game_sessions env results chat_log] in *.
  destruct (initial_scene_raises gs e rs log cl stp event s c e0 u e1 d e2
              Hs Hc Ht Hcall) as (n & Hn & ->).
  cbn [fst snd game_sessions results chat_log]. eauto 10.
Qed.

(** The same failure seen from the start command: the new session is in
    place, active, with no context entry and no option. *)
Lemma start_with_failing_scene event st c e0 u e1 d e2 :
  let sid := unified_msg_origin event in
  match game_sessions st !! sid with Some s => game_active s | None => false end = false ->
  lookup_conversation host sid (env st) = (inr (Some c), e0) ->
  get_llm_tool_manager host e0 = (inr u, e1) ->
  call_provider host (scene_request host config e1 c []) e1 = (inl d, e2) ->
  exists n, (n <= 1)%nat /\
    handle_start_galgame host py config event st
    = (inr tt,
       mkState (<[sid := mkSession true [] ∅]> (game_sessions st)) e2
         (results st ++ ["gal已启动"; scene_notice d])
         (chat_log st ++ take n [scene_request host config e1 c []])
         (call_llm st) (stopped st)).
Proof.
  intros sid Hoff Hc Ht Hcall. subst sid.
  destruct st as [gs e rs log cl stp].
  cbn [game_sessions env results chat_log call_llm stopped] in *.
  destruct (initial_scene_raises
              (<[unified_msg_origin event := mkSession true [] ∅]> gs) e
              (rs ++ ["gal已启动"]) log cl stp event (mkSession true [] ∅)
              c e0 u e1 d e2 (lookup_insert_eq _ _ _) Hc Ht Hcall) as (n & Hn & Hrun).
  exists n. split; [exact Hn|].
  unfold handle_start_galgame. cbv zeta.
  erewrite bind_inr by apply run_is_active. rewrite Hoff.
  unfold bind at 1, put_session, new_session.
  cbn [game_sessions env results chat_log call_llm stopped].
  erewrite bind_inr by apply run_plain_result.
  rewrite Hrun. now rewrite <- app_assoc.
Qed.

(** ** Properties of a choice *)

(** A choice for a session that is not in the store: the [KeyError] is
    caught by the phase and reported. *)
Lemma process_user_choice_no_session gs e rs log cl stp event choice :
  gs !! unified_msg_origin event = None ->
  _process_user_choice host py config event choice (mkState gs e rs log cl stp)
  = (inr tt,
     mkState gs e (rs ++ ["处理选择时出错: " +:+ repr py (unified_msg_origin event)])
       log cl stp).
Proof.
  intros Hs. unfold _process_user_choice. cbv zeta.
  erewrite try_inl by (erewrite bind_inl by (eapply run_session_missing; exact Hs);
                       reflexivity).
  reflexivity.
Qed.

(** C9.  A label with no entry in [last_options] makes
    [_process_user_choice] send one notice and change nothing else: the
    session store, and with it the context list, is as before. *)
Theorem unknown_choice_rejected event choice st s :
  game_sessions st !! unified_msg_origin event = Some s ->
  last_options s !! choice = None ->
  _process_user_choice host py config event choice st
  = (inr tt,
     mkState (game_sessions st) (env st)
       (results st ++ ["无法识别您的选择，请重新选择A、B或C"])
       (chat_log st) (call_llm st) (stopped st)).
Proof.
  intros Hs Hl. destruct st as [gs e rs log cl stp].
  cbn [game_sessions env results chat_log call_llm stopped] in *.
  eapply process_user_choice_unknown; eauto.
Qed.

(** The whole turn when the continuation call raises. *)
Lemma choice_turn_story_raises gs e rs log cl stp event choice s text c e0 d e1 :
  let sid := unified_msg_origin event in
  let h := llm_context s ++ [choice_entry text] in
  gs !! sid = Some s ->
  last_options s !! choice = Some text ->
  text <> "" ->
  lookup_conversation host sid e = (inr (Some c), e0) ->
  call_provider host (story_request host config e0 c text h) e0 = (inl d, e1) ->
  exists n, (n <= 1)%nat /\
    _process_user_choice host py config event choice (mkState gs e rs log cl stp)
    = (inr tt,
       mkState (<[sid := mkSession (game_active s) h (last_options s)]> gs) e1
         (rs ++ [story_notice d])
         (log ++ take n [story_request host config e0 c text h]) cl stp).
Proof.
  intros sid h Hs Hl Hne Hc Hcall. subst sid h.
  rewrite (process_user_choice_valid gs e rs log cl stp event choice s text Hs Hl Hne).
  exact (story_progression_raises _ e rs log cl stp event choice text
           (mkSession (game_active s) (llm_context s ++ [choice_entry text])
              (last_options s))
           c e0 d e1 (lookup_insert_eq _ _ _) Hc Hcall).
Qed.

(** C3.  When the continuation call of a turn raises, the turn sends
    exactly one item, the notice ["生成故事进展时出错: <detail>"]; no option
    request reaches the provider and [last_options] is what it was before the
    choice. *)
Theorem continuation_failure_keeps_options event choice st s text c e0 d e1 :
  let sid := unified_msg_origin event in
  let st' := (_process_user_choice host py config event choice st).2 in
  let request :=
    story_request host config e0 c text (llm_context s ++ [choice_entry text]) in
  game_sessions st !! sid = Some s ->
  last_options s !! choice = Some text ->
  text <> "" ->
  lookup_conversation host sid (env st) = (inr (Some c), e0) ->
  call_provider host request e0 = (inl d, e1) ->
  results st' = results st ++ ["生成故事进展时出错: " +:+ d] /\
  (exists n, (n <= 1)%nat /\ chat_log st' = chat_log st ++ take n [request]) /\
  exists s', game_sessions st' !! sid = Some s' /\
    last_options s' = last_options s /\ game_active s' = game_active s.
Proof.
  intros sid st' request Hs Hl Hne Hc Hcall. subst st' request.
  destruct st as [gs e rs log cl stp]. cbn [game_sessions env results chat_log] in *.
  destruct (choice_turn_story_raises gs e rs log cl stp event choice s text c e0 d e1
              Hs Hl Hne Hc Hcall) as (n & Hn & ->).
  cbn [snd game_sessions results chat_log]. fold sid.
  split; [reflexivity|]. split; [eauto|].
  eexists. split; [apply lookup_insert_eq|]. auto.
Qed.

(** C10.  When the continuation call of a turn raises, the entry
    [{user, "用户选择了：<chosen text>"}] appended before the call stays: the
    context list afterwards is the old one followed by that entry, which is
    therefore its last entry, with no assistant entry after it. *)
Theorem aborted_turn_keeps_choice event choice st s text c e0 d e1 :
  let sid := unified_msg_origin event in
  let st' := (_process_user_choice host py config event choice st).2 in
  let chosen := mkMessage user ("用户选择了：" +:+ text) in
  game_sessions st !! sid = Some s ->
  last_options s !! choice = Some text ->
  text <> "" ->
  lookup_conversation host sid (env st) = (inr (Some c), e0) ->
  call_provider host (story_request host config e0 c text (llm_context s ++ [chosen])) e0
  = (inl d, e1) ->
  exists s', game_sessions st' !! sid = Some s' /\
    llm_context s' = llm_context s ++ [chosen] /\
    last (llm_context s') = Some chosen.
Proof.
  intros sid st' chosen Hs Hl Hne Hc Hcall. subst st'.
  destruct st as [gs e rs log cl stp]. cbn [game_sessions env] in *.
  destruct (choice_turn_story_raises gs e rs log cl stp event choice s text c e0 d e1
              Hs Hl Hne Hc Hcall) as (n & Hn & ->).
  cbn [snd game_sessions]. fold sid.
  eexists. split; [apply lookup_insert_eq|]. cbn [llm_context].
  split; [reflexivity|]. apply last_snoc.
Qed.

(** The whole turn when the continuation call returns: the two entries are
    appended, the story is sent, and option generation runs from there. *)
Lemma choice_turn_story_returns gs e rs log cl stp event choice s text c e0 r e1 :
  let sid := unified_msg_origin event in
  let story := text_or "故事继续..." r in
  gs !! sid = Some s ->
  last_options s !! choice = Some text ->
  text <> "" ->
  lookup_conversation host sid e = (inr (Some c), e0) ->
  call_provider host
    (story_request host config e0 c text (llm_context s ++ [choice_entry text])) e0
  = (inr r, e1) ->
  _process_user_choice host py config event choice (mkState gs e rs log cl stp)
  = _generate_options host py config event
      (mkState
         (<[sid := mkSession (game_active s)
                     (llm_context s ++ [choice_entry text; mkMessage assistant story])
                     (last_options s)]> gs)
         e1 (rs ++ [story])
         (log ++ [story_request host config e0 c text
                    (llm_context s ++ [choice_entry text])])
         cl stp).
Proof.
  intros sid story Hs Hl Hne Hc Hstory. subst sid story.
  rewrite (process_user_choice_valid gs e rs log cl stp event choice s text Hs Hl Hne).
  rewrite (story_progression_continues _ e rs log cl stp event choice text
             (mkSession (game_active s) (llm_context s ++ [choice_entry text])
                (last_options s))
             c e0 r e1 (lookup_insert_eq _ _ _) Hc Hstory).
  cbn [game_active llm_context last_options].
  now rewrite insert_insert_eq, <- app_assoc.
Qed.

(** C4, as the code has it.  For a label whose entry in [last_options] is a
    non-empty text, when the continuation call returns, the turn appends the
    entry [{user, "用户选择了：<text>"}] and the entry [{assistant, <story>}],
    sends the story, and is from there on a run of option generation on that
    context list.  What that run adds depends on the host alone:
    - its conversation is found and its three provider calls return: the three
      options are sent after the story, [last_options] holds exactly these
      three and the options summary is appended as last entry;
    - its conversation lookup gives no conversation, or raises: one notice is
      sent after the story, [last_options] is the one before the choice;
    - its first, second or third provider call raises: the options of the
      calls before it are sent and stored, then one notice, and
      [last_options] holds only those.
    In the last two cases the context list is the old one followed by the two
    entries of the turn. *)
Theorem choice_turn_continues event choice st s text c0 e0 r e1 :
  let sid := unified_msg_origin event in
  let st' := (_process_user_choice host py config event choice st).2 in
  let story := text_or "故事继续..." r in
  let h1 := llm_context s ++ [mkMessage user ("用户选择了：" +:+ text)] in
  let h2 :=
    llm_context s ++
      [mkMessage user ("用户选择了：" +:+ text); mkMessage assistant story] in
  let after_story :=
    mkState (<[sid := mkSession (game_active s) h2 (last_options s)]> (game_sessions st))
      e1 (results st ++ [story])
      (chat_log st ++ [story_request host config e0 c0 text h1])
      (call_llm st) (stopped st) in
  let session_is l o :=
    game_sessions st' !! sid = Some (mkSession (game_active s) l o) in
  game_sessions st !! sid = Some s ->
  last_options s !! choice = Some text ->
  text <> "" ->
  lookup_conversation host sid (env st) = (inr (Some c0), e0) ->
  call_provider host (story_request host config e0 c0 text h1) e0 = (inr r, e1) ->
  _process_user_choice host py config event choice st
  = _generate_options host py config event after_story /\
  ((exists c1 e2 ra e3 rb e4 rc e5,
      lookup_conversation host sid e1 = (inr (Some c1), e2) /\
      call_provider host (req_a h2) e2 = (inr ra, e3) /\
      call_provider host (req_b h2) e3 = (inr rb, e4) /\
      call_provider host (req_c h2) e4 = (inr rc, e5) /\
      results st' = results st ++ [story; text_a ra; text_b rb; text_c rc] /\
      chat_log st' =
        chat_log st ++
          [story_request host config e0 c0 text h1; req_a h2; req_b h2; req_c h2] /\
      session_is (h2 ++ [options_summary (text_a ra) (text_b rb) (text_c rc)])
        (three_options (text_a ra) (text_b rb) (text_c rc)) /\
      fresh_options_after_story st st' sid)
   \/ (exists e2,
      lookup_conversation host sid e1 = (inr None, e2) /\
      results st' = results st ++ [story; "无法获取对话，请重新开始游戏"] /\
      session_is h2 (last_options s))
   \/ (exists d e2,
      lookup_conversation host sid e1 = (inl d, e2) /\
      results st' = results st ++ [story; options_notice d] /\
      session_is h2 (last_options s))
   \/ (exists c1 e2 d e3,
      lookup_conversation host sid e1 = (inr (Some c1), e2) /\
      call_provider host (req_a h2) e2 = (inl d, e3) /\
      results st' = results st ++ [story; options_notice d] /\
      session_is h2 ∅)
   \/ (exists c1 e2 ra e3 d e4,
      lookup_conversation host sid e1 = (inr (Some c1), e2) /\
      call_provider host (req_a h2) e2 = (inr ra, e3) /\
      call_provider host (req_b h2) e3 = (inl d, e4) /\
      results st' = results st ++ [story; text_a ra; options_notice d] /\
      session_is h2 (<["A" := text_a ra]> ∅))
   \/ (exists c1 e2 ra e3 rb e4 d e5,
      lookup_conversation host sid e1 = (inr (Some c1), e2) /\
      call_provider host (req_a h2) e2 = (inr ra, e3) /\
      call_provider host (req_b h2) e3 = (inr rb, e4) /\
      call_provider host (req_c h2) e4 = (inl d, e5) /\
      results st' = results st ++ [story; text_a ra; text_b rb; options_notice d] /\
      session_is h2 (<["B" := text_b rb]> (<["A" := text_a ra]> ∅)))).
Proof.
  intros sid st' story h1 h2 after_story session_is Hs Hl Hne Hc0 Hstory.
  subst st' session_is after_story.
  destruct st as [gs e rs log cl stp].
  cbn [game_sessions env results chat_log call_llm stopped] in *.
  set (mid := mkSession (game_active s) h2 (last_options s)).
  set (gs1 := <[sid := mid]> gs).
  assert (Hmid : gs1 !! unified_msg_origin event = Some mid) by apply lookup_insert_eq.
  assert (Hrun : _process_user_choice host py config event choice
                   (mkState gs e rs log cl stp)
                 = _generate_options host py config event
                     (mkState gs1 e1 (rs ++ [story])
                        (log ++ [story_request host config e0 c0 text h1]) cl stp))
    by exact (choice_turn_story_returns gs e rs log cl stp event choice s text
                c0 e0 r e1 Hs Hl Hne Hc0 Hstory).
  rewrite Hrun. clear Hrun.
  split; [reflexivity|].
  destruct (lookup_conversation host sid e1) as [[d|[c1|]] e2] eqn:Hc1.
  { right; right; left. exists d, e2. split; [reflexivity|].
    rewrite (generate_options_lookup_raises gs1 e1 (rs ++ [story])
               (log ++ [story_request host config e0 c0 text h1]) cl stp event d e2 Hc1).
    cbn [snd game_sessions results]. rewrite <- app_assoc. split; [reflexivity | exact Hmid]. }
  2:{ right; left. exists e2. split; [reflexivity|].
      rewrite (generate_options_no_conversation gs1 e1 (rs ++ [story])
                 (log ++ [story_request host config e0 c0 text h1]) cl stp event e2 Hc1).
      cbn [snd game_sessions results]. rewrite <- app_assoc.
      split; [reflexivity | exact Hmid]. }
  destruct (call_provider host (req_a h2) e2) as [[d|ra] e3] eqn:HA.
  { right; right; right; left. exists c1, e2, d, e3.
    destruct (generate_options_a_raises gs1 e1 (rs ++ [story])
                (log ++ [story_request host config e0 c0 text h1]) cl stp event mid
                c1 e2 d e3 Hmid Hc1 HA) as (n & _ & ->).
    cbn [snd game_sessions results game_active llm_context]. fold sid.
    rewrite lookup_insert_eq, <- app_assoc. auto. }
  destruct (call_provider host (req_b h2) e3) as [[d|rb] e4] eqn:HB.
  { right; right; right; right; left. exists c1, e2, ra, e3, d, e4.
    destruct (generate_options_b_raises gs1 e1 (rs ++ [story])
                (log ++ [story_request host config e0 c0 text h1]) cl stp event mid
                c1 e2 ra e3 d e4 Hmid Hc1 HA HB) as (n & _ & ->).
    cbn [snd game_sessions results game_active llm_context]. fold sid.
    rewrite lookup_insert_eq, <- app_assoc. auto. }
  destruct (call_provider host (req_c h2) e4) as [[d|rc] e5] eqn:HC.
  { right; right; right; right; right. exists c1, e2, ra, e3, rb, e4, d, e5.
    destruct (generate_options_c_raises gs1 e1 (rs ++ [story])
                (log ++ [story_request host config e0 c0 text h1]) cl stp event mid
                c1 e2 ra e3 rb e4 d e5 Hmid Hc1 HA HB HC) as (n & _ & ->).
    cbn [snd game_sessions results game_active llm_context]. fold sid.
    rewrite lookup_insert_eq, <- app_assoc. auto 10. }
  left. exists c1, e2, ra, e3, rb, e4, rc, e5.
  rewrite (generate_options_complete gs1 e1 (rs ++ [story])
             (log ++ [story_request host config e0 c0 text h1]) cl stp event mid
             c1 e2 ra e3 rb e4 rc e5 Hmid Hc1 HA HB HC).
  cbn [snd game_sessions results chat_log game_active llm_context]. fold sid.
  rewrite lookup_insert_eq, <- !app_assoc.
  repeat split; auto.
  exists story, (text_a ra), (text_b rb), (text_c rc). eexists.
  cbn [results game_sessions]. split; [reflexivity|].
  split; [apply lookup_insert_eq|]. reflexivity.
Qed.

(** ** Properties of the handlers *)

(** C8.  A start command for a session that is active sends the one notice
    that a game is already running and changes nothing else: the session
    store, hence the session's context list and [last_options], is as
    before. *)
Theorem start_when_active event st s :
  game_sessions st !! unified_msg_origin event = Some s ->
  game_active s = true ->
  handle_start_galgame host py config event st
  = (inr tt,
     mkState (game_sessions st) (env st)
       (results st ++ ["已经有一个进行中的 gal 游戏，请先使用 'gal关闭' 结束当前游戏"])
       (chat_log st) (call_llm st) (stopped st)).
Proof.
  intros Hs Ha. destruct st as [gs e rs log cl stp].
  cbn [game_sessions env results chat_log call_llm stopped] in *.
  unfold handle_start_galgame. cbv zeta.
  erewrite bind_inr by apply run_is_active.
  rewrite Hs, Ha. reflexivity.
Qed.

(** C7.  While the session is active, a message whose stripped and
    upper-cased text is none of A, B, C, and is neither of the upper-cased
    command spellings ["GAL启动"] and ["GAL关闭"], sends nothing, stops the
    propagation of the event and leaves the session store (context list,
    [last_options], active flag) and the other flag as they were. *)
Theorem other_input_suppressed event st s :
  let user_input := str_upper py (str_strip py (message_str event)) in
  game_sessions st !! unified_msg_origin event = Some s ->
  game_active s = true ->
  user_input ∉ ["A"; "B"; "C"] ->
  user_input ∉ ["GAL启动"; "GAL关闭"] ->
  handle_game_input host py config event st
  = (inr tt,
     mkState (game_sessions st) (env st) (results st) (chat_log st) (call_llm st) true).
Proof.
  intros user_input Hs Ha Hchoice Hcommand. destruct st as [gs e rs log cl stp].
  cbn [game_sessions env results chat_log call_llm stopped] in *.
  unfold handle_game_input. cbv zeta.
  erewrite bind_inr by apply run_is_active.
  rewrite Hs, Ha. fold user_input.
  rewrite (bool_decide_eq_false_2 _ Hchoice).
  rewrite (bool_decide_eq_true_2 _ Hcommand).
  reflexivity.
Qed.

(** C6.  Stopping an active session sends the confirmation, sets its
    active flag to false and empties its context list.  Stopping where the
    session is absent or inactive sends the one notice that nothing is
    running and changes nothing else.  A start after the stop runs exactly as
    a start where the session never existed: both put a new session (active,
    empty context list, empty options) in place, send ["gal已启动"] and
    generate the opening scene from there. *)
Theorem stop_then_start stop start (st : State Env) s (idle_st : State Env) :
  let sid := unified_msg_origin stop in
  let halted :=
    mkState (<[sid := mkSession false [] (last_options s)]> (game_sessions st))
      (env st) (results st ++ ["gal已关闭"]) (chat_log st) (call_llm st) (stopped st) in
  let never :=
    mkState (delete sid (game_sessions st))
      (env st) (results st ++ ["gal已关闭"]) (chat_log st) (call_llm st) (stopped st) in
  let fresh :=
    mkState (<[sid := mkSession true [] ∅]> (game_sessions st))
      (env st) (results st ++ ["gal已关闭"; "gal已启动"]) (chat_log st) (call_llm st)
      (stopped st) in
  unified_msg_origin start = sid ->
  game_sessions st !! sid = Some s ->
  game_active s = true ->
  (game_sessions idle_st !! sid = None \/
   exists s0, game_sessions idle_st !! sid = Some s0 /\ game_active s0 = false) ->
  handle_stop_galgame py stop st = (inr tt, halted) /\
  handle_stop_galgame py stop idle_st
  = (inr tt,
     mkState (game_sessions idle_st) (env idle_st)
       (results idle_st ++ ["当前没有进行中的 gal 游戏"])
       (chat_log idle_st) (call_llm idle_st) (stopped idle_st)) /\
  handle_start_galgame host py config start halted
  = handle_start_galgame host py config start never /\
  handle_start_galgame host py config start halted
  = _generate_initial_scene host py config start fresh.
Proof.
  intros sid halted never fresh Hsid Hs Ha Hidle. subst halted never fresh.
  destruct st as [gs e rs log cl stp], idle_st as [gs0 e0 rs0 log0 cl0 stp0].
  cbn [game_sessions env results chat_log call_llm stopped] in *.
  assert (Hstart : forall gs1,
             match gs1 !! sid with Some s1 => game_active s1 | None => false end = false ->
             handle_start_galgame host py config start
               (mkState gs1 e (rs ++ ["gal已关闭"]) log cl stp)
             = _generate_initial_scene host py config start
                 (mkState (<[sid := mkSession true [] ∅]> gs1) e
                    (rs ++ ["gal已关闭"; "gal已启动"]) log cl stp)).
  { intros gs1 Hoff. unfold handle_start_galgame. cbv zeta. rewrite Hsid.
    erewrite bind_inr by apply run_is_active. rewrite Hoff.
    unfold bind, put_session, plain_result, new_session.
    cbn [game_sessions env results chat_log call_llm stopped].
    now rewrite <- app_assoc. }
  repeat split.
  - unfold handle_stop_galgame. cbv zeta. fold sid.
    erewrite bind_inr by apply run_is_active. rewrite Hs, Ha. cbn [negb].
    erewrite bind_inr by (eapply run_set_game_active; exact Hs).
    erewrite bind_inr by (eapply run_set_llm_context; apply lookup_insert_eq).
    cbn [game_active llm_context last_options]. now rewrite insert_insert_eq.
  - unfold handle_stop_galgame. cbv zeta. fold sid.
    erewrite bind_inr by apply run_is_active.
    destruct Hidle as [-> | (s0 & -> & ->)]; reflexivity.
  - rewrite !Hstart.
    + now rewrite insert_insert_eq, insert_delete_eq.
    + now rewrite lookup_delete_eq.
    + now rewrite lookup_insert_eq.
  - rewrite Hstart.
    + now rewrite insert_insert_eq.
    + now rewrite lookup_insert_eq.
Qed.

(** ** What the phases keep *)

Lemma advances_refl sid (st : State Env) : advances sid st st.
Proof.
  repeat split; auto.
  intros s Hs. exists s. repeat split; auto. set_solver.
Qed.

Lemma advances_trans sid (st1 st2 st3 : State Env) :
  advances sid st1 st2 -> advances sid st2 st3 -> advances sid st1 st3.
Proof.
  intros (Ho1 & Hn1 & Hs1 & Hr1 & Hl1 & Hc1 & Hp1) (Ho2 & Hn2 & Hs2 & Hr2 & Hl2 & Hc2 & Hp2).
  repeat split.
  - intros k Hk. rewrite Ho2, Ho1; auto.
  - auto.
  - intros s Hs. destruct (Hs1 s Hs) as (s2 & Hs2' & Ha2 & Hh2 & Hd2).
    destruct (Hs2 s2 Hs2') as (s3 & Hs3' & Ha3 & Hh3 & Hd3).
    exists s3. repeat split; auto.
    + congruence.
    + etrans; eauto.
    + intros x Hx. apply Hd3 in Hx. apply elem_of_union in Hx as [Hx|Hx].
      * now apply Hd2.
      * now apply elem_of_union_r.
  - etrans; eauto.
  - etrans; eauto.
  - congruence.
  - congruence.
Qed.

Lemma keeps_ret sid {A} (a : A) : keeps sid (ret (Env := Env) a).
Proof. intros st. apply advances_refl. Qed.

Lemma keeps_bind sid {A B} (m : Run.M Env A) (k : A -> Run.M Env B) :
  keeps sid m -> (forall a, keeps sid (k a)) -> keeps sid (bind m k).
Proof.
  intros Hm Hk st. unfold bind. specialize (Hm st).
  destruct (m st) as [[x|a] st1]; [exact Hm|].
  eapply advances_trans; [exact Hm | apply Hk].
Qed.

Lemma keeps_try sid {A} (body : Run.M Env A) handler :
  keeps sid body -> (forall x, keeps sid (handler x)) ->
  keeps sid (try_except body handler).
Proof.
  intros Hb Hh st. unfold try_except. specialize (Hb st).
  destruct (body st) as [[x|a] st1]; [|exact Hb].
  eapply advances_trans; [exact Hb | apply Hh].
Qed.

(** A step that leaves the sessions and the flags alone and only adds to
    what was sent and asked. *)
Lemma advances_outputs sid gs e e' rs rs' log log' cl stp :
  advances sid (mkState gs e rs log cl stp)
    (mkState gs e' (rs ++ rs') (log ++ log') cl stp).
Proof.
  repeat split; cbn [game_sessions results chat_log call_llm stopped]; auto.
  - intros s Hs. exists s. repeat split; auto. set_solver.
  - now apply prefix_app_r.
  - now apply prefix_app_r.
Qed.

Lemma keeps_plain_result sid text : keeps sid (plain_result (Env := Env) text).
Proof.
  intros [gs e rs log cl stp]. cbn [plain_result snd game_sessions env results chat_log call_llm stopped].
  rewrite <- (app_nil_r log) at 2. apply advances_outputs.
Qed.

Lemma keeps_host_call sid {A} (f : Env -> (string + A) * Env) : keeps sid (host_call f).
Proof.
  intros [gs e rs log cl stp]. unfold host_call.
  cbn [game_sessions env results chat_log call_llm stopped].
  destruct (f e) as [r e']. cbn [snd].
  rewrite <- (app_nil_r rs) at 2. rewrite <- (app_nil_r log) at 2.
  apply advances_outputs.
Qed.

Lemma keeps_chat sid req : keeps sid (chat host req).
Proof.
  intros [gs e rs log cl stp]. unfold chat.
  cbn [game_sessions env results chat_log call_llm stopped].
  destruct (text_chat host req e) as [r e']. cbn [snd].
  rewrite <- (app_nil_r rs) at 2. apply advances_outputs.
Qed.

Lemma keeps_get_system_prompt sid persona dflt :
  keeps sid (get_system_prompt host persona dflt).
Proof. intros st. apply advances_refl. Qed.

Lemma keeps_session sid sid' : keeps (Env := Env) sid (session py sid').
Proof.
  intros st. unfold session, raise.
  destruct (game_sessions st !! sid'); apply advances_refl.
Qed.

(** An update of the session itself that keeps its flag, extends its
    context list and adds no label outside A, B, C. *)
Lemma keeps_update sid (f : Session -> Session) :
  (forall s, game_active (f s) = game_active s /\
             llm_context s `prefix_of` llm_context (f s) /\
             dom (last_options (f s)) ⊆ dom (last_options s) ∪ labels) ->
  keeps (Env := Env) sid (s <- session py sid ;; put_session sid (f s)).
Proof.
  intros Hf [gs e rs log cl stp]. unfold bind, session, raise, put_session.
  cbn [game_sessions env results chat_log call_llm stopped].
  destruct (gs !! sid) as [s|] eqn:Hs; cbn [snd]; [|apply advances_refl].
  repeat split; cbn [game_sessions results chat_log call_llm stopped]; auto.
  - intros k Hk. now rewrite lookup_insert_ne.
  - congruence.
  - intros s0 Hs0. assert (s0 = s) as -> by congruence.
    exists (f s). split; [apply lookup_insert_eq|]. apply Hf.
Qed.

Lemma keeps_append_context sid m : keeps (Env := Env) sid (append_context py sid m).
Proof.
  apply (keeps_update sid
           (fun s => mkSession (game_active s) (llm_context s ++ [m]) (last_options s))).
  intros s. cbn [game_active llm_context last_options].
  repeat split; [now apply prefix_app_r | set_solver].
Qed.

Lemma keeps_set_last_options_empty sid : keeps (Env := Env) sid (set_last_options py sid ∅).
Proof.
  apply (keeps_update sid (fun s => mkSession (game_active s) (llm_context s) ∅)).
  intros s. cbn [game_active llm_context last_options].
  repeat split; [reflexivity | set_solver].
Qed.

Lemma keeps_store_option sid label text :
  label ∈ labels -> keeps (Env := Env) sid (store_option py sid label text).
Proof.
  intros Hl.
  apply (keeps_update sid
           (fun s => mkSession (game_active s) (llm_context s)
                       (<[label := text]> (last_options s)))).
  intros s. cbn [game_active llm_context last_options].
  repeat split; [reflexivity|].
  rewrite dom_insert_L. apply union_subseteq. split.
  - apply singleton_subseteq_l. now apply elem_of_union_r.
  - apply union_subseteq_l.
Qed.

Lemma keeps_provider_text_chat sid p sp : keeps sid (provider_text_chat host py sid p sp).
Proof.
  unfold provider_text_chat.
  apply keeps_bind; [apply keeps_host_call|]. intros _.
  apply keeps_bind; [apply keeps_session|]. intros s.
  apply keeps_chat.
Qed.

Lemma keeps_generate_options event :
  keeps (unified_msg_origin event) (_generate_options host py config event).
Proof.
  unfold _generate_options. cbv zeta.
  apply keeps_try; [|intros x; apply keeps_plain_result].
  apply keeps_bind; [apply keeps_host_call|]. intros [c|]; [|apply keeps_plain_result].
  apply keeps_bind; [apply keeps_set_last_options_empty|]. intros _.
  apply keeps_bind; [apply keeps_provider_text_chat|]. intros ra.
  apply keeps_bind; [apply keeps_store_option; set_solver|]. intros _.
  apply keeps_bind; [apply keeps_plain_result|]. intros _.
  apply keeps_bind; [apply keeps_provider_text_chat|]. intros rb.
  apply keeps_bind; [apply keeps_store_option; set_solver|]. intros _.
  apply keeps_bind; [apply keeps_plain_result|]. intros _.
  apply keeps_bind; [apply keeps_provider_text_chat|]. intros rc.
  apply keeps_bind; [apply keeps_store_option; set_solver|]. intros _.
  apply keeps_bind; [apply keeps_plain_result|]. intros _.
  apply keeps_append_context.
Qed.

Lemma keeps_generate_initial_scene event :
  keeps (unified_msg_origin event) (_generate_initial_scene host py config event).
Proof.
  unfold _generate_initial_scene. cbv zeta.
  apply keeps_try; [|intros x; apply keeps_plain_result].
  apply keeps_bind; [apply keeps_host_call|]. intros [c|]; [|apply keeps_plain_result].
  apply keeps_bind; [apply keeps_host_call|]. intros _.
  apply keeps_bind; [apply keeps_get_system_prompt|]. intros sp.
  apply keeps_bind; [apply keeps_provider_text_chat|]. intros r.
  apply keeps_bind; [apply keeps_plain_result|]. intros _.
  apply keeps_bind; [apply keeps_append_context|]. intros _.
  apply keeps_bind; [apply keeps_append_context|]. intros _.
  apply keeps_generate_options.
Qed.

Lemma keeps_generate_story_progression event choice text :
  keeps (unified_msg_origin event)
    (_generate_story_progression host py config event choice text).
Proof.
  unfold _generate_story_progression. cbv zeta.
  apply keeps_try; [|intros x; apply keeps_plain_result].
  apply keeps_bind; [apply keeps_host_call|]. intros [c|]; [|apply keeps_plain_result].
  apply keeps_bind; [apply keeps_get_system_prompt|]. intros sp.
  apply keeps_bind; [apply keeps_provider_text_chat|]. intros r.
  apply keeps_bind; [apply keeps_plain_result|]. intros _.
  apply keeps_bind; [apply keeps_append_context|]. intros _.
  apply keeps_generate_options.
Qed.

Lemma keeps_process_user_choice event choice :
  keeps (unified_msg_origin event) (_process_user_choice host py config event choice).
Proof.
  unfold _process_user_choice. cbv zeta.
  apply keeps_try; [|intros x; apply keeps_plain_result].
  apply keeps_bind; [apply keeps_session|]. intros s.
  destruct (last_options s !! choice) as [text|]; [|apply keeps_plain_result].
  destruct (decide (text = "")); [apply keeps_plain_result|].
  apply keeps_bind; [apply keeps_append_context|]. intros _.
  apply keeps_generate_story_progression.
Qed.

(** ** Further properties of the phases and handlers *)

Lemma run_is_active_in_game gs e rs log cl stp sid :
  is_active sid (mkState gs e rs log cl stp)
  = (inr (in_game gs sid), mkState gs e rs log cl stp).
Proof. reflexivity. Qed.

(** X1.  A start where no game runs, with the conversation found and all
    four provider calls returning: the new session is active, its context
    list is the scene template as system entry, the scene as assistant entry
    and the options summary, its [last_options] are the three options, and
    the items sent are ["gal已启动"], the scene, and the options A, B, C in
    that order. *)
Theorem start_opens_game event st c e0 u e1 r e2 c1 e3 ra e4 rb e5 rc e6 :
  let sid := unified_msg_origin event in
  let scene := text_or "欢迎来到游戏世界" r in
  let h := [mkMessage system (SYSTEM_SCENE_PROMPT config); mkMessage assistant scene] in
  in_game (game_sessions st) sid = false ->
  lookup_conversation host sid (env st) = (inr (Some c), e0) ->
  get_llm_tool_manager host e0 = (inr u, e1) ->
  call_provider host (scene_request host config e1 c []) e1 = (inr r, e2) ->
  lookup_conversation host sid e2 = (inr (Some c1), e3) ->
  call_provider host (req_a h) e3 = (inr ra, e4) ->
  call_provider host (req_b h) e4 = (inr rb, e5) ->
  call_provider host (req_c h) e5 = (inr rc, e6) ->
  handle_start_galgame host py config event st
  = (inr tt,
     mkState
       (<[sid := mkSession true
                   (h ++ [options_summary (text_a ra) (text_b rb) (text_c rc)])
                   (three_options (text_a ra) (text_b rb) (text_c rc))]>
          (game_sessions st))
       e6
       (results st ++ ["gal已启动"; scene; text_a ra; text_b rb; text_c rc])
       (chat_log st ++ [scene_request host config e1 c []; req_a h; req_b h; req_c h])
       (call_llm st) (stopped st)).
Proof.
  intros sid scene h Hoff Hc Ht Hscene Hc1 HA HB HC. subst sid scene h.
  destruct st as [gs e rs log cl stp].
  cbn [game_sessions env results chat_log call_llm stopped] in *.
  unfold handle_start_galgame. cbv zeta.
  erewrite bind_inr by apply run_is_active_in_game. rewrite Hoff.
  unfold bind at 1, put_session, new_session.
  cbn [game_sessions env results chat_log call_llm stopped].
  erewrite bind_inr by apply run_plain_result.
  rewrite (initial_scene_continues _ e _ log cl stp event (mkSession true [] ∅)
             c e0 u e1 r e2 (lookup_insert_eq _ _ _) Hc Ht Hscene).
  cbn [game_active llm_context last_options app]. rewrite insert_insert_eq.
  rewrite (generate_options_complete _ e2 _ _ cl stp event
             (mkSession true
                [mkMessage system (SYSTEM_SCENE_PROMPT config);
                 mkMessage assistant (text_or "欢迎来到游戏世界" r)] ∅)
             c1 e3 ra e4 rb e5 rc e6 (lookup_insert_eq _ _ _) Hc1 HA HB HC).
  cbn [game_active llm_context last_options]. rewrite insert_insert_eq.
  now rewrite <- !app_assoc.
Qed.

Lemma initial_scene_no_conversation gs e rs log cl stp event e0 :
  lookup_conversation host (unified_msg_origin event) e = (inr None, e0) ->
  _generate_initial_scene host py config event (mkState gs e rs log cl stp)
  = (inr tt, mkState gs e0 (rs ++ ["无法获取对话，请重新开始游戏"]) log cl stp).
Proof.
  intros Hc. unfold _generate_initial_scene. cbv zeta. apply try_inr.
  erewrite bind_inr by (apply run_host_call; exact Hc).
  reflexivity.
Qed.

Lemma story_progression_no_conversation gs e rs log cl stp event choice text e0 :
  lookup_conversation host (unified_msg_origin event) e = (inr None, e0) ->
  _generate_story_progression host py config event choice text
    (mkState gs e rs log cl stp)
  = (inr tt, mkState gs e0 (rs ++ ["无法获取对话，请重新开始游戏"]) log cl stp).
Proof.
  intros Hc. unfold _generate_story_progression. cbv zeta. apply try_inr.
  erewrite bind_inr by (apply run_host_call; exact Hc).
  reflexivity.
Qed.

(** X2.  When the conversation lookup gives no conversation, each of the
    three generation phases sends the one notice
    ["无法获取对话，请重新开始游戏"] and stops: the session store is as it was (in
    particular option generation has not reset [last_options]) and nothing
    was asked of the provider. *)
Theorem phases_without_conversation event choice text st e0 :
  let halted :=
    (inr tt,
     mkState (game_sessions st) e0 (results st ++ ["无法获取对话，请重新开始游戏"])
       (chat_log st) (call_llm st) (stopped st)) in
  lookup_conversation host (unified_msg_origin event) (env st) = (inr None, e0) ->
  _generate_initial_scene host py config event st = halted /\
  _generate_options host py config event st = halted /\
  _generate_story_progression host py config event choice text st = halted.
Proof.
  intros halted Hc. subst halted. destruct st as [gs e rs log cl stp].
  cbn [game_sessions env results chat_log call_llm stopped] in *.
  split; [|split].
  - now apply initial_scene_no_conversation.
  - now apply generate_options_no_conversation.
  - now apply story_progression_no_conversation.
Qed.

(** X3.  A label whose stored option text is the empty text is treated as
    a label that is not on offer ([not ""] holds): one notice, no entry
    appended, nothing asked of the provider. *)
Theorem empty_option_rejected event choice st s :
  game_sessions st !! unified_msg_origin event = Some s ->
  last_options s !! choice = Some "" ->
  _process_user_choice host py config event choice st
  = (inr tt,
     mkState (game_sessions st) (env st)
       (results st ++ ["无法识别您的选择，请重新选择A、B或C"])
       (chat_log st) (call_llm st) (stopped st)).
Proof.
  intros Hs Hl. destruct st as [gs e rs log cl stp].
  cbn [game_sessions env results chat_log call_llm stopped] in *.
  eapply process_user_choice_unknown; eauto.
Qed.

(** X4.  A choice for a session that is not in the store does not crash:
    the [KeyError] of the lookup is caught by the phase, which sends the one
    notice ["处理选择时出错: <repr of the session id>"] and changes nothing. *)
Theorem choice_without_session event choice st :
  game_sessions st !! unified_msg_origin event = None ->
  _process_user_choice host py config event choice st
  = (inr tt,
     mkState (game_sessions st) (env st)
       (results st ++ ["处理选择时出错: " +:+ repr py (unified_msg_origin event)])
       (chat_log st) (call_llm st) (stopped st)).
Proof.
  intros Hs. destruct st as [gs e rs log cl stp].
  cbn [game_sessions env results chat_log call_llm stopped] in *.
  now apply process_user_choice_no_session.
Qed.

Lemma game_input_inactive gs e rs log cl stp event :
  in_game gs (unified_msg_origin event) = false ->
  handle_game_input host py config event (mkState gs e rs log cl stp)
  = (inr tt, mkState gs e rs log cl stp).
Proof.
  intros Hoff. unfold handle_game_input. cbv zeta.
  erewrite bind_inr by apply run_is_active_in_game. now rewrite Hoff.
Qed.

(** X5.  Where no game runs (no session, or a stopped one), the input
    handler does nothing at all, whatever the message: nothing is sent, no
    flag of the event is set, the store is untouched; this holds for the texts
    A, B and C too. *)
Theorem input_ignored_when_inactive event st :
  in_game (game_sessions st) (unified_msg_origin event) = false ->
  handle_game_input host py config event st = (inr tt, st).
Proof.
  intros Hoff. destruct st as [gs e rs log cl stp]. cbn [game_sessions] in *.
  now apply game_input_inactive.
Qed.

(** X6.  While a game runs, a message whose stripped and upper-cased text
    is ["GAL启动"] or ["GAL关闭"] is left alone by the input handler: nothing
    is sent, the propagation is not stopped and the store is untouched. *)
Theorem command_text_passes_through event st :
  let user_input := str_upper py (str_strip py (message_str event)) in
  in_game (game_sessions st) (unified_msg_origin event) = true ->
  user_input ∈ ["GAL启动"; "GAL关闭"] ->
  handle_game_input host py config event st = (inr tt, st).
Proof.
  intros user_input Hon Hcommand. destruct st as [gs e rs log cl stp].
  cbn [game_sessions] in *.
  unfold handle_game_input. cbv zeta.
  erewrite bind_inr by apply run_is_active_in_game. rewrite Hon. fold user_input.
  assert (Hchoice : user_input ∉ ["A"; "B"; "C"]).
  { intros Hin.
    apply elem_of_cons in Hcommand as [->|Hcommand];
      [|apply elem_of_cons in Hcommand as [->|Hcommand];
        [|now apply elem_of_nil in Hcommand]];
      repeat (apply elem_of_cons in Hin as [Hin|Hin]; [discriminate Hin|]);
      now apply elem_of_nil in Hin. }
  rewrite (bool_decide_eq_false_2 _ Hchoice).
  assert (Hnot : ~ (user_input ∉ ["GAL启动"; "GAL关闭"])) by (intros Hn; now apply Hn).
  now rewrite (bool_decide_eq_false_2 _ Hnot).
Qed.

(** X7.  While a game runs, a message whose stripped and upper-cased text
    is A, B or C is handled as that choice with the default reply switched
    off: the handler runs [_process_user_choice] on the normalised label after
    [should_call_llm(False)], and afterwards that flag is still off and the
    propagation flag is as it was. *)
Theorem choice_input_dispatch event st :
  let user_input := str_upper py (str_strip py (message_str event)) in
  let muted :=
    mkState (game_sessions st) (env st) (results st) (chat_log st) false (stopped st) in
  let st' := (handle_game_input host py config event st).2 in
  in_game (game_sessions st) (unified_msg_origin event) = true ->
  user_input ∈ ["A"; "B"; "C"] ->
  handle_game_input host py config event st
  = _process_user_choice host py config event user_input muted /\
  call_llm st' = false /\
  stopped st' = stopped st.
Proof.
  intros user_input muted st' Hon Hchoice. subst st'.
  assert (Hrun : handle_game_input host py config event st
                 = _process_user_choice host py config event user_input muted).
  { subst muted. destruct st as [gs e rs log cl stp].
    cbn [game_sessions env results chat_log call_llm stopped] in *.
    unfold handle_game_input. cbv zeta.
    erewrite bind_inr by apply run_is_active_in_game. rewrite Hon. fold user_input.
    rewrite (bool_decide_eq_true_2 _ Hchoice). reflexivity. }
  split; [exact Hrun|]. rewrite Hrun.
  destruct (keeps_process_user_choice event user_input muted)
    as (_ & _ & _ & _ & _ & Hcl & Hstp).
  split; [exact Hcl | exact Hstp].
Qed.

(** *** What the handlers do to the store *)

Lemma stop_active gs e rs log cl stp event s :
  gs !! unified_msg_origin event = Some s ->
  game_active s = true ->
  handle_stop_galgame py event (mkState gs e rs log cl stp)
  = (inr tt,
     mkState (<[unified_msg_origin event := mkSession false [] (last_options s)]> gs)
       e (rs ++ ["gal已关闭"]) log cl stp).
Proof.
  intros Hs Ha. unfold handle_stop_galgame. cbv zeta.
  erewrite bind_inr by apply run_is_active_in_game.
  unfold in_game. rewrite Hs, Ha. cbn [negb].
  erewrite bind_inr by (eapply run_set_game_active; exact Hs).
  erewrite bind_inr by (eapply run_set_llm_context; apply lookup_insert_eq).
  cbn [game_active llm_context last_options]. now rewrite insert_insert_eq.
Qed.

Lemma stop_inactive gs e rs log cl stp event :
  in_game gs (unified_msg_origin event) = false ->
  handle_stop_galgame (Env := Env) py event (mkState gs e rs log cl stp)
  = (inr tt, mkState gs e (rs ++ ["当前没有进行中的 gal 游戏"]) log cl stp).
Proof.
  intros Hoff. unfold handle_stop_galgame. cbv zeta.
  erewrite bind_inr by apply run_is_active_in_game. now rewrite Hoff.
Qed.

Lemma in_game_true gs sid :
  in_game gs sid = true -> exists s, gs !! sid = Some s /\ game_active s = true.
Proof.
  unfold in_game. destruct (gs !! sid) as [s|]; [eauto | discriminate].
Qed.

Lemma start_active gs e rs log cl stp event :
  in_game gs (unified_msg_origin event) = true ->
  handle_start_galgame host py config event (mkState gs e rs log cl stp)
  = (inr tt,
     mkState gs e
       (rs ++ ["已经有一个进行中的 gal 游戏，请先使用 'gal关闭' 结束当前游戏"])
       log cl stp).
Proof.
  intros Hon. unfold handle_start_galgame. cbv zeta.
  erewrite bind_inr by apply run_is_active_in_game. now rewrite Hon.
Qed.

Lemma start_inactive gs e rs log cl stp event :
  in_game gs (unified_msg_origin event) = false ->
  handle_start_galgame host py config event (mkState gs e rs log cl stp)
  = _generate_initial_scene host py config event
      (mkState (<[unified_msg_origin event := new_session]> gs) e
         (rs ++ ["gal已启动"]) log cl stp).
Proof.
  intros Hoff. unfold handle_start_galgame. cbv zeta.
  erewrite bind_inr by apply run_is_active_in_game. now rewrite Hoff.
Qed.

(** The input handler sets at most the flags of the event and then only
    advances the state. *)
Lemma game_input_advances_from gs e rs log cl stp event :
  exists cl' stp',
    advances (unified_msg_origin event) (mkState gs e rs log cl' stp')
      (handle_game_input host py config event (mkState gs e rs log cl stp)).2.
Proof.
  unfold handle_game_input. cbv zeta.
  erewrite bind_inr by apply run_is_active_in_game.
  destruct (in_game gs (unified_msg_origin event));
    [|exists cl, stp; apply advances_refl].
  case_bool_decide.
  - exists false, stp. unfold bind at 1, should_call_llm.
    cbn [game_sessions env results chat_log call_llm stopped].
    apply keeps_process_user_choice.
  - case_bool_decide.
    + exists cl, true. apply advances_refl.
    + exists cl, stp. apply advances_refl.
Qed.

Lemma generate_initial_scene_returns event st :
  exists st', _generate_initial_scene host py config event st = (inr tt, st').
Proof. apply try_notice_returns. Qed.

Lemma process_user_choice_returns event choice st :
  exists st', _process_user_choice host py config event choice st = (inr tt, st').
Proof. apply try_notice_returns. Qed.

(** X8.  An exception of class [Exception] raised during a handler, by a
    host call (conversation lookup, tool manager, provider lookup,
    [text_chat]) or by a lookup in the store, does not leave the handler: each
    handler ends normally.  The phases catch it, and the stop handler, which
    has no [try], reads the session only after its test has found it.
    Exceptions outside that class are not represented and not covered. *)
Theorem handlers_contain_exceptions event (st : State Env) :
  (handle_start_galgame host py config event st).1 = inr tt /\
  (handle_stop_galgame py event st).1 = inr tt /\
  (handle_game_input host py config event st).1 = inr tt.
Proof.
  destruct st as [gs e rs log cl stp]. split; [|split].
  - destruct (in_game gs (unified_msg_origin event)) eqn:Hon.
    + now rewrite start_active.
    + rewrite start_inactive by exact Hon.
      match goal with
      | |- (_generate_initial_scene _ _ _ _ ?mid).1 = _ =>
          destruct (generate_initial_scene_returns event mid) as [st' ->]
      end.
      reflexivity.
  - destruct (in_game gs (unified_msg_origin event)) eqn:Hon.
    + destruct (in_game_true _ _ Hon) as (s & Hs & Ha).
      now rewrite (stop_active gs e rs log cl stp event s Hs Ha).
    + now rewrite stop_inactive.
  - unfold handle_game_input. cbv zeta.
    erewrite bind_inr by apply run_is_active_in_game.
    destruct (in_game gs (unified_msg_origin event)); [|reflexivity].
    case_bool_decide; [|case_bool_decide; reflexivity].
    unfold bind at 1, should_call_llm.
    cbn [game_sessions env results chat_log call_llm stopped].
    match goal with
    | |- (_process_user_choice _ _ _ _ ?c ?mid).1 = _ =>
        destruct (process_user_choice_returns event c mid) as [st' ->]
    end.
    reflexivity.
Qed.

(** X9.  Sessions are isolated: whatever the host does, a handler run for
    one session identifier leaves the entry of every other identifier in the
    store exactly as it was. *)
Theorem handlers_keep_other_sessions event (st : State Env) k :
  k <> unified_msg_origin event ->
  game_sessions (handle_start_galgame host py config event st).2 !! k
  = game_sessions st !! k /\
  game_sessions (handle_stop_galgame py event st).2 !! k = game_sessions st !! k /\
  game_sessions (handle_game_input host py config event st).2 !! k
  = game_sessions st !! k.
Proof.
  intros Hk. destruct st as [gs e rs log cl stp]. cbn [game_sessions].
  split; [|split].
  - destruct (in_game gs (unified_msg_origin event)) eqn:Hon.
    + now rewrite start_active.
    + rewrite start_inactive by exact Hon.
      match goal with
      | |- game_sessions (_generate_initial_scene _ _ _ _ ?mid).2 !! _ = _ =>
          destruct (keeps_generate_initial_scene event mid) as (Ho & _)
      end.
      rewrite (Ho k Hk). cbn [game_sessions]. now rewrite lookup_insert_ne.
  - destruct (in_game gs (unified_msg_origin event)) eqn:Hon.
    + destruct (in_game_true _ _ Hon) as (s & Hs & Ha).
      rewrite (stop_active gs e rs log cl stp event s Hs Ha).
      cbn [snd game_sessions]. now rewrite lookup_insert_ne.
    + now rewrite stop_inactive.
  - destruct (game_input_advances_from gs e rs log cl stp event)
      as (cl' & stp' & Ho & _).
    exact (Ho k Hk).
Qed.

(** X10.  Whatever the message and whatever the host does, the input
    handler neither starts nor ends a game and drops nothing: a session that
    exists still exists afterwards with the same active flag, its earlier
    context list is an initial part of the new one, its option labels are the
    earlier ones or A, B, C, and what was sent before is an initial part of
    what is sent now. *)
Theorem game_input_advances event (st : State Env) s :
  let sid := unified_msg_origin event in
  let st' := (handle_game_input host py config event st).2 in
  game_sessions st !! sid = Some s ->
  (exists s', game_sessions st' !! sid = Some s' /\
     game_active s' = game_active s /\
     llm_context s `prefix_of` llm_context s' /\
     dom (last_options s') ⊆ dom (last_options s) ∪ labels) /\
  results st `prefix_of` results st'.
Proof.
  intros sid st' Hs. subst sid st'. destruct st as [gs e rs log cl stp].
  cbn [game_sessions results] in *.
  destruct (game_input_advances_from gs e rs log cl stp event)
    as (cl' & stp' & _ & _ & Hsid & Hres & _).
  split; [exact (Hsid s Hs) | exact Hres].
Qed.

(** X11.  After a start command the session exists and is active, whatever
    state it was in and whatever the host does; this holds also when the
    opening scene could not be generated. *)
Theorem start_leaves_active event (st : State Env) :
  in_game (game_sessions (handle_start_galgame host py config event st).2)
    (unified_msg_origin event) = true.
Proof.
  destruct st as [gs e rs log cl stp].
  destruct (in_game gs (unified_msg_origin event)) eqn:Hon.
  - now rewrite start_active.
  - rewrite start_inactive by exact Hon.
    match goal with
    | |- in_game (game_sessions (_generate_initial_scene _ _ _ _ ?mid).2) _ = _ =>
        destruct (keeps_generate_initial_scene event mid) as (_ & _ & Hsid & _)
    end.
    destruct (Hsid new_session (lookup_insert_eq _ _ _)) as (s' & Hs' & Ha & _).
    unfold in_game. now rewrite Hs', Ha.
Qed.

(** X12.  The store invariant (options stored under A, B and C only; a
    session that is not active has an empty context list) holds for the empty
    store and is kept by every handler and by [terminate], whatever the host
    does. *)
Theorem handlers_keep_store_ok event (st : State Env) :
  store_ok (game_sessions st) ->
  store_ok (game_sessions (handle_start_galgame host py config event st).2) /\
  store_ok (game_sessions (handle_stop_galgame py event st).2) /\
  store_ok (game_sessions (handle_game_input host py config event st).2) /\
  store_ok (game_sessions (terminate st).2) /\
  store_ok ∅.
Proof.
  intros Hok. destruct st as [gs e rs log cl stp]. cbn [game_sessions] in Hok.
  assert (Hlabels : forall s s' : Session,
             dom (last_options s) ⊆ labels ->
             dom (last_options s') ⊆ dom (last_options s) ∪ labels ->
             dom (last_options s') ⊆ labels).
  { intros s s' H1 H2 x Hx. apply H2 in Hx.
    apply elem_of_union in Hx as [Hx|Hx]; [now apply H1 | exact Hx]. }
  split; [|split; [|split; [|split]]].
  - destruct (in_game gs (unified_msg_origin event)) eqn:Hon.
    + now rewrite start_active.
    + rewrite start_inactive by exact Hon.
      match goal with
      | |- store_ok (game_sessions (_generate_initial_scene _ _ _ _ ?mid).2) =>
          destruct (keeps_generate_initial_scene event mid) as (Ho & _ & Hsid & _)
      end.
      intros k s' Hk.
      destruct (decide (k = unified_msg_origin event)) as [->|Hne].
      * destruct (Hsid new_session (lookup_insert_eq _ _ _)) as (s1 & Hs1 & Ha & _ & Hd).
        assert (s1 = s') as -> by congruence.
        split.
        -- apply (Hlabels new_session s'); [|exact Hd].
           cbn [new_session last_options]. rewrite dom_empty_L. apply empty_subseteq.
        -- rewrite Ha. discriminate.
      * rewrite (Ho k Hne) in Hk. cbn [game_sessions] in Hk.
        rewrite lookup_insert_ne in Hk by congruence. exact (Hok k s' Hk).
  - destruct (in_game gs (unified_msg_origin event)) eqn:Hon.
    + destruct (in_game_true _ _ Hon) as (s & Hs & Ha).
      rewrite (stop_active gs e rs log cl stp event s Hs Ha). cbn [snd game_sessions].
      intros k s' Hk.
      destruct (decide (k = unified_msg_origin event)) as [->|Hne].
      * rewrite lookup_insert_eq in Hk. injection Hk as <-.
        cbn [last_options llm_context game_active].
        split; [exact (proj1 (Hok _ _ Hs)) | reflexivity].
      * rewrite lookup_insert_ne in Hk by congruence. exact (Hok k s' Hk).
    + now rewrite stop_inactive.
  - destruct (in_game gs (unified_msg_origin event)) eqn:Hon.
    + destruct (in_game_true _ _ Hon) as (s & Hs & Ha).
      destruct (game_input_advances_from gs e rs log cl stp event)
        as (cl' & stp' & Ho & _ & Hsid & _).
      cbn [game_sessions] in Ho, Hsid.
      intros k s' Hk.
      destruct (decide (k = unified_msg_origin event)) as [->|Hne].
      * destruct (Hsid s Hs) as (s1 & Hs1 & Ha1 & _ & Hd).
        assert (s1 = s') as -> by congruence.
        split.
        -- apply (Hlabels s s'); [exact (proj1 (Hok _ _ Hs)) | exact Hd].
        -- rewrite Ha1, Ha. discriminate.
      * rewrite (Ho k Hne) in Hk. exact (Hok k s' Hk).
    + now rewrite game_input_inactive.
  - intros k s' Hk. cbn [terminate snd game_sessions] in Hk.
    now rewrite lookup_empty in Hk.
  - intros k s' Hk. now rewrite lookup_empty in Hk.
Qed.

(** *** How the operations compose *)

(** X13.  After [terminate] no game runs anywhere: for every session
    identifier the input handler does nothing and the stop handler only
    reports that nothing is running. *)
Theorem terminate_forgets event (st : State Env) :
  let st' := (terminate st).2 in
  game_sessions st' = ∅ /\
  handle_game_input host py config event st' = (inr tt, st') /\
  handle_stop_galgame py event st'
  = (inr tt,
     mkState ∅ (env st) (results st ++ ["当前没有进行中的 gal 游戏"]) (chat_log st)
       (call_llm st) (stopped st)).
Proof.
  intros st'. subst st'. destruct st as [gs e rs log cl stp].
  cbn [terminate snd game_sessions env results chat_log call_llm stopped].
  split; [reflexivity|]. split.
  - apply game_input_inactive. unfold in_game. now rewrite lookup_empty.
  - apply stop_inactive. unfold in_game. now rewrite lookup_empty.
Qed.

(** X14.  Stopping keeps the options of the last turn in the stopped
    session, but they are dead: after the stop a message of that session,
    A, B and C included, is ignored by the input handler, and a second stop
    only reports that nothing is running. *)
Theorem stopped_game_is_closed stop message (st : State Env) s :
  let sid := unified_msg_origin stop in
  let st' := (handle_stop_galgame py stop st).2 in
  unified_msg_origin message = sid ->
  game_sessions st !! sid = Some s ->
  game_active s = true ->
  game_sessions st' !! sid = Some (mkSession false [] (last_options s)) /\
  handle_game_input host py config message st' = (inr tt, st') /\
  handle_stop_galgame py stop st'
  = (inr tt,
     mkState (game_sessions st') (env st)
       (results st ++ ["gal已关闭"; "当前没有进行中的 gal 游戏"])
       (chat_log st) (call_llm st) (stopped st)).
Proof.
  intros sid st' Hm Hs Ha. subst sid st'. destruct st as [gs e rs log cl stp].
  cbn [game_sessions env results chat_log call_llm stopped] in *.
  rewrite (stop_active gs e rs log cl stp stop s Hs Ha).
  cbn [snd game_sessions].
  split; [apply lookup_insert_eq|]. split.
  - apply game_input_inactive. rewrite Hm. unfold in_game.
    now rewrite lookup_insert_eq.
  - rewrite stop_inactive by (unfold in_game; now rewrite lookup_insert_eq).
    now rewrite <- app_assoc.
Qed.

(** X15.  A turn whose continuation call raised can be repeated: the same
    label is accepted again, because [last_options] was kept, and the choice
    is recorded once more.  When the second continuation call raises too, the
    context list ends with the two choice entries and two notices were
    sent. *)
Theorem failed_turn_can_be_repeated event choice st s text c e0 d e1 c' e2 d' e3 :
  let sid := unified_msg_origin event in
  let st1 := (_process_user_choice host py config event choice st).2 in
  let st2 := (_process_user_choice host py config event choice st1).2 in
  let chosen := choice_entry text in
  game_sessions st !! sid = Some s ->
  last_options s !! choice = Some text ->
  text <> "" ->
  lookup_conversation host sid (env st) = (inr (Some c), e0) ->
  call_provider host (story_request host config e0 c text (llm_context s ++ [chosen])) e0
  = (inl d, e1) ->
  lookup_conversation host sid e1 = (inr (Some c'), e2) ->
  call_provider host
    (story_request host config e2 c' text ((llm_context s ++ [chosen]) ++ [chosen])) e2
  = (inl d', e3) ->
  results st2 = results st ++ [story_notice d; story_notice d'] /\
  game_sessions st2 !! sid
  = Some (mkSession (game_active s) (llm_context s ++ [chosen; chosen]) (last_options s)).
Proof.
  intros sid st1 st2 chosen Hs Hl Hne Hc Hcall Hc' Hcall'. subst st2 st1 sid chosen.
  destruct st as [gs e rs log cl stp].
  cbn [game_sessions env results chat_log call_llm stopped] in *.
  destruct (choice_turn_story_raises gs e rs log cl stp event choice s text c e0 d e1
              Hs Hl Hne Hc Hcall) as (n & _ & ->).
  cbn [snd].
  destruct (choice_turn_story_raises
              (<[unified_msg_origin event :=
                   mkSession (game_active s) (llm_context s ++ [choice_entry text])
                     (last_options s)]> gs)
              e1 (rs ++ [story_notice d])
              (log ++ take n [story_request host config e0 c text
                                (llm_context s ++ [choice_entry text])])
              cl stp event choice
              (mkSession (game_active s) (llm_context s ++ [choice_entry text])
                 (last_options s))
              text c' e2 d' e3 (lookup_insert_eq _ _ _) Hl Hne Hc' Hcall')
    as (n' & _ & ->).
  cbn [snd game_sessions results game_active llm_context last_options].
  rewrite insert_insert_eq, lookup_insert_eq, <- !app_assoc. split; reflexivity.
Qed.

(** X16.  When the first option call raises, the session is left with no
    option at all: every choice made afterwards, whatever the label, is
    answered with the notice that it was not recognised and changes
    nothing. *)
Theorem no_choice_after_failed_options event choice st s c e0 d e1 :
  let sid := unified_msg_origin event in
  let st' := (_generate_options host py config event st).2 in
  game_sessions st !! sid = Some s ->
  lookup_conversation host sid (env st) = (inr (Some c), e0) ->
  call_provider host (req_a (llm_context s)) e0 = (inl d, e1) ->
  _process_user_choice host py config event choice st'
  = (inr tt,
     mkState (game_sessions st') (env st')
       (results st' ++ ["无法识别您的选择，请重新选择A、B或C"])
       (chat_log st') (call_llm st') (stopped st')).
Proof.
  intros sid st' Hs Hc HA. subst sid st'. destruct st as [gs e rs log cl stp].
  cbn [game_sessions env] in *.
  destruct (generate_options_a_raises gs e rs log cl stp event s c e0 d e1 Hs Hc HA)
    as (n & _ & ->).
  cbn [snd game_sessions env results chat_log call_llm stopped].
  eapply process_user_choice_unknown; [apply lookup_insert_eq|].
  left. cbn [last_options]. apply lookup_empty.
Qed.

(** *** [_get_system_prompt] *)

(** X17.  The default prompt of the caller is used when the conversation
    is bound to ["[%None]"]; when it is bound to nothing and the default
    persona cannot be read, is missing or is an empty dict; and when it is
    bound to an id and the registered personas cannot be read or none of them
    has that id. *)
Theorem system_prompt_falls_back e persona dflt :
  persona = Some "[%None]"
  \/ (persona = None /\
      forall p, selected_default_persona host e = inr (Some p) -> p = ∅)
  \/ (exists pid, persona = Some pid /\
        forall ps p, personas host e = inr ps -> p ∈ ps -> p !! "id" <> Some pid) ->
  _get_system_prompt host e persona dflt = dflt.
Proof.
  intros [-> | [[-> Hdp] | (pid & -> & Hps)]]; unfold _get_system_prompt.
  - reflexivity.
  - destruct (selected_default_persona host e) as [x|[p|]]; try reflexivity.
    rewrite (Hdp p eq_refl). reflexivity.
  - destruct (decide (pid = "[%None]")); [reflexivity|].
    destruct (personas host e) as [x|ps]; [reflexivity|].
    destruct (find _ ps) as [p|] eqn:Hfind; [|reflexivity].
    apply find_some in Hfind as [Hin Hid].
    apply bool_decide_eq_true_1 in Hid.
    exfalso. apply (Hps ps p eq_refl); [|exact Hid].
    now apply list_elem_of_In.
Qed.

(** X18.  For a conversation bound to an id other than ["[%None]"], the
    first registered persona with that id decides: its ["prompt"] is the
    system prompt, or the caller's default when it has none; later personas
    with the same id are not looked at. *)
Theorem system_prompt_of_first_match e pid dflt before p after :
  pid <> "[%None]" ->
  personas host e = inr (before ++ p :: after) ->
  (forall q, q ∈ before -> q !! "id" <> Some pid) ->
  p !! "id" = Some pid ->
  _get_system_prompt host e (Some pid) dflt = default dflt (p !! "prompt").
Proof.
  intros Hpid Hps Hbefore Hid. unfold _get_system_prompt.
  destruct (decide (pid = "[%None]")); [contradiction|].
  rewrite Hps. clear Hps.
  induction before as [|q before IH]; cbn [app find].
  - now rewrite (bool_decide_eq_true_2 _ Hid).
  - rewrite bool_decide_eq_false_2 by (apply Hbefore; left).
    apply IH. intros q' Hq'. apply Hbefore. now right.
Qed.

End Phases.

(** ** The properties at concrete runs *)

(** A second ["gal启动"] while the game runs. *)
Lemma start_when_active_witness :
  game_sessions (before running []) !! "room" = Some running /\
  game_active running = true /\
  handle_start_galgame scripted_host ascii_builtins ∅ (ev "gal启动") (before running [])
  = (inr tt,
     mkState {["room" := running]} []
       ["已经有一个进行中的 gal 游戏，请先使用 'gal关闭' 结束当前游戏"] [] true false).
Proof.
  split; [reflexivity|]. split; [reflexivity|].
  apply (start_when_active scripted_host ascii_builtins ∅ (ev "gal启动")
           (before running []) running); reflexivity.
Defined.

(** The message [" d "] while the game runs. *)
Lemma other_input_suppressed_witness :
  game_sessions (before running []) !! "room" = Some running /\
  game_active running = true /\
  (str_upper ascii_builtins (str_strip ascii_builtins " d ") ∉ ["A"; "B"; "C"]) /\
  (str_upper ascii_builtins (str_strip ascii_builtins " d ") ∉ ["GAL启动"; "GAL关闭"]) /\
  handle_game_input scripted_host ascii_builtins ∅ (ev " d ") (before running [])
  = (inr tt, mkState {["room" := running]} [] [] [] true true).
Proof.
  assert (Hchoice : str_upper ascii_builtins (str_strip ascii_builtins " d ")
                    ∉ ["A"; "B"; "C"])
    by (apply (bool_decide_unpack _); vm_compute; exact I).
  assert (Hcommand : str_upper ascii_builtins (str_strip ascii_builtins " d ")
                     ∉ ["GAL启动"; "GAL关闭"])
    by (apply (bool_decide_unpack _); vm_compute; exact I).
  split; [reflexivity|]. split; [reflexivity|].
  split; [exact Hchoice|]. split; [exact Hcommand|].
  exact (other_input_suppressed scripted_host ascii_builtins ∅ (ev " d ")
           (before running []) running eq_refl eq_refl Hchoice Hcommand).
Defined.

(** The label C when only A and B are on offer. *)
Lemma unknown_choice_rejected_witness :
  let s := mkSession true told (<["B" := "B - b"]> (<["A" := "A - a"]> ∅)) in
  game_sessions (before s []) !! "room" = Some s /\
  last_options s !! "C" = None /\
  _process_user_choice scripted_host ascii_builtins ∅ (ev "C") "C" (before s [])
  = (inr tt,
     mkState {["room" := s]} [] ["无法识别您的选择，请重新选择A、B或C"] [] true false).
Proof.
  intros s. split; [reflexivity|]. split; [reflexivity|].
  exact (unknown_choice_rejected scripted_host ascii_builtins ∅ (ev "C") "C"
           (before s []) s eq_refl eq_refl).
Defined.

(** The opening scene on the session a start has just created, with a
    provider that times out. *)
Lemma opening_scene_failure_witness :
  let script := [fails "timeout"] in
  let st := before (mkSession true [] ∅) script in
  let st' := (_generate_initial_scene scripted_host ascii_builtins ∅ (ev "gal启动") st).2 in
  let request := scene_request scripted_host ∅ script talk [] in
  (game_sessions st !! "room" = Some (mkSession true [] ∅) /\
   lookup_conversation scripted_host "room" script = (inr (Some talk), script) /\
   get_llm_tool_manager scripted_host script = (inr tt, script) /\
   call_provider scripted_host request script = (inl "timeout", [])) /\
  (_generate_initial_scene scripted_host ascii_builtins ∅ (ev "gal启动") st).1 = inr tt /\
  results st' = ["生成场景时出错: timeout"] /\
  game_sessions st' = game_sessions st /\
  game_sessions st' !! "room" = Some (mkSession true [] ∅) /\
  exists n, (n <= 1)%nat /\ chat_log st' = take n [request].
Proof.
  intros script st st' request.
  split; [repeat split|].
  exact (opening_scene_failure scripted_host ascii_builtins ∅ (ev "gal启动") st
           (mkSession true [] ∅) talk script tt script "timeout" []
           eq_refl eq_refl eq_refl eq_refl).
Defined.

(** The choice B with a provider that times out: the options stay. *)
Lemma continuation_failure_keeps_options_witness :
  let script := [fails "timeout"] in
  let st := before running script in
  let st' := (_process_user_choice scripted_host ascii_builtins ∅ (ev "b") "B" st).2 in
  let request :=
    story_request scripted_host ∅ script talk "B - b" (told ++ [choice_entry "B - b"]) in
  (game_sessions st !! "room" = Some running /\
   last_options running !! "B" = Some "B - b" /\
   "B - b" <> "" /\
   lookup_conversation scripted_host "room" script = (inr (Some talk), script) /\
   call_provider scripted_host request script = (inl "timeout", [])) /\
  results st' = ["生成故事进展时出错: timeout"] /\
  (exists n, (n <= 1)%nat /\ chat_log st' = take n [request]) /\
  exists s', game_sessions st' !! "room" = Some s' /\
    last_options s' = offered /\ game_active s' = true.
Proof.
  intros script st st' request.
  assert (Hne : "B - b" <> "") by discriminate.
  split; [repeat split; exact Hne|].
  exact (continuation_failure_keeps_options scripted_host ascii_builtins ∅ (ev "b") "B" st
           running "B - b" talk script "timeout" []
           eq_refl eq_refl Hne eq_refl eq_refl).
Defined.

(** The same turn: the choice stays in the context list. *)
Lemma aborted_turn_keeps_choice_witness :
  let script := [fails "timeout"] in
  let st := before running script in
  let st' := (_process_user_choice scripted_host ascii_builtins ∅ (ev "b") "B" st).2 in
  let chosen := mkMessage user ("用户选择了：" +:+ "B - b") in
  (game_sessions st !! "room" = Some running /\
   last_options running !! "B" = Some "B - b" /\
   "B - b" <> "" /\
   lookup_conversation scripted_host "room" script = (inr (Some talk), script) /\
   call_provider scripted_host
     (story_request scripted_host ∅ script talk "B - b" (told ++ [chosen])) script
   = (inl "timeout", [])) /\
  exists s', game_sessions st' !! "room" = Some s' /\
    llm_context s' = told ++ [chosen] /\
    last (llm_context s') = Some chosen.
Proof.
  intros script st st' chosen.
  assert (Hne : "B - b" <> "") by discriminate.
  split; [repeat split; exact Hne|].
  exact (aborted_turn_keeps_choice scripted_host ascii_builtins ∅ (ev "b") "B" st
           running "B - b" talk script "timeout" []
           eq_refl eq_refl Hne eq_refl eq_refl).
Defined.

(** Option generation where the second response has no [completion_text]:
    three options are offered, B by its fallback. *)
Lemma generate_options_offers_witness :
  let script := [says "A - x"; silent; says "C - z"] in
  let st := before running script in
  let st' := (_generate_options scripted_host ascii_builtins ∅ (ev "") st).2 in
  let stored := last_options <$> game_sessions st' !! "room" in
  let req p := option_request p told in
  let text_a := text_or option_a_fallback in
  let text_b := text_or option_b_fallback in
  let text_c := text_or option_c_fallback in
  (game_sessions st !! "room" = Some running /\
   lookup_conversation scripted_host "room" script = (inr (Some talk), script)) /\
  ((exists ra e1 rb e2 rc e3,
      call_provider scripted_host (req (OPTION_A_PROMPT ∅)) script = (inr ra, e1) /\
      call_provider scripted_host (req (OPTION_B_PROMPT ∅)) e1 = (inr rb, e2) /\
      call_provider scripted_host (req (OPTION_C_PROMPT ∅)) e2 = (inr rc, e3) /\
      results st' = [text_a ra; text_b rb; text_c rc] /\
      stored = Some (three_options (text_a ra) (text_b rb) (text_c rc)) /\
      three_options_offered st st' "room")
   \/ (exists d e1,
      call_provider scripted_host (req (OPTION_A_PROMPT ∅)) script = (inl d, e1) /\
      results st' = ["生成选项时出错: " +:+ d] /\
      stored = Some ∅)
   \/ (exists ra e1 d e2,
      call_provider scripted_host (req (OPTION_A_PROMPT ∅)) script = (inr ra, e1) /\
      call_provider scripted_host (req (OPTION_B_PROMPT ∅)) e1 = (inl d, e2) /\
      results st' = [text_a ra; "生成选项时出错: " +:+ d] /\
      stored = Some (<["A" := text_a ra]> ∅))
   \/ (exists ra e1 rb e2 d e3,
      call_provider scripted_host (req (OPTION_A_PROMPT ∅)) script = (inr ra, e1) /\
      call_provider scripted_host (req (OPTION_B_PROMPT ∅)) e1 = (inr rb, e2) /\
      call_provider scripted_host (req (OPTION_C_PROMPT ∅)) e2 = (inl d, e3) /\
      results st' = [text_a ra; text_b rb; "生成选项时出错: " +:+ d] /\
      stored = Some (<["B" := text_b rb]> (<["A" := text_a ra]> ∅)))).
Proof.
  intros script st st' stored req text_a text_b text_c.
  split; [split; reflexivity|].
  exact (generate_options_offers scripted_host ascii_builtins ∅ (ev "") st running talk
           script eq_refl eq_refl).
Defined.

(** Option generation where the third call raises: the requests carry the
    old context list, which is left as it was. *)
Lemma options_share_history_witness :
  let script := [says "A - x"; says "B - y"; fails "timeout"] in
  let st := before running script in
  let st' := (_generate_options scripted_host ascii_builtins ∅ (ev "") st).2 in
  let req p := option_request p told in
  let text_a := text_or option_a_fallback in
  let text_b := text_or option_b_fallback in
  let text_c := text_or option_c_fallback in
  (game_sessions st !! "room" = Some running /\
   lookup_conversation scripted_host "room" script = (inr (Some talk), script)) /\
  exists n s',
    chat_log st' =
      take n [req (OPTION_A_PROMPT ∅); req (OPTION_B_PROMPT ∅); req (OPTION_C_PROMPT ∅)] /\
    game_sessions st' !! "room" = Some s' /\
    ((exists ra e1 rb e2 rc e3,
        call_provider scripted_host (req (OPTION_A_PROMPT ∅)) script = (inr ra, e1) /\
        call_provider scripted_host (req (OPTION_B_PROMPT ∅)) e1 = (inr rb, e2) /\
        call_provider scripted_host (req (OPTION_C_PROMPT ∅)) e2 = (inr rc, e3) /\
        n = 3 /\
        llm_context s' =
          told ++ [mkMessage assistant
                     ("提供的选项：" +:+ nl +:+ text_a ra +:+ nl +:+ text_b rb
                        +:+ nl +:+ text_c rc)])
     \/ (llm_context s' = told /\
         ((exists d e1,
              call_provider scripted_host (req (OPTION_A_PROMPT ∅)) script = (inl d, e1))
          \/ (exists ra e1 d e2,
                call_provider scripted_host (req (OPTION_A_PROMPT ∅)) script = (inr ra, e1) /\
                call_provider scripted_host (req (OPTION_B_PROMPT ∅)) e1 = (inl d, e2))
          \/ (exists ra e1 rb e2 d e3,
                call_provider scripted_host (req (OPTION_A_PROMPT ∅)) script = (inr ra, e1) /\
                call_provider scripted_host (req (OPTION_B_PROMPT ∅)) e1 = (inr rb, e2) /\
                call_provider scripted_host (req (OPTION_C_PROMPT ∅)) e2 = (inl d, e3))))).
Proof.
  intros script st st' req text_a text_b text_c.
  split; [split; reflexivity|].
  exact (options_share_history scripted_host ascii_builtins ∅ (ev "") st running talk
           script eq_refl eq_refl).
Defined.

(** The choice A with a provider that answers four times. *)
Lemma choice_turn_continues_witness :
  let script := [says "story"; says "A - x"; says "B - y"; says "C - z"] in
  let rest := [says "A - x"; says "B - y"; says "C - z"] in
  let st := before running script in
  let st' := (_process_user_choice scripted_host ascii_builtins ∅ (ev "a") "A" st).2 in
  let h1 := told ++ [mkMessage user ("用户选择了：" +:+ "A - a")] in
  let h2 :=
    told ++ [mkMessage user ("用户选择了：" +:+ "A - a"); mkMessage assistant "story"] in
  let story_req := story_request scripted_host ∅ script talk "A - a" h1 in
  let after_story :=
    mkState {["room" := mkSession true h2 offered]} rest ["story"] [story_req]
      true false in
  let session_is l o := game_sessions st' !! "room" = Some (mkSession true l o) in
  let req p := option_request p h2 in
  let text_a := text_or option_a_fallback in
  let text_b := text_or option_b_fallback in
  let text_c := text_or option_c_fallback in
  let notice d := "生成选项时出错: " +:+ d in
  (game_sessions st !! "room" = Some running /\
   last_options running !! "A" = Some "A - a" /\
   "A - a" <> "" /\
   lookup_conversation scripted_host "room" script = (inr (Some talk), script) /\
   call_provider scripted_host story_req script = (says "story", rest)) /\
  _process_user_choice scripted_host ascii_builtins ∅ (ev "a") "A" st
  = _generate_options scripted_host ascii_builtins ∅ (ev "a") after_story /\
  ((exists c1 e2 ra e3 rb e4 rc e5,
      lookup_conversation scripted_host "room" rest = (inr (Some c1), e2) /\
      call_provider scripted_host (req (OPTION_A_PROMPT ∅)) e2 = (inr ra, e3) /\
      call_provider scripted_host (req (OPTION_B_PROMPT ∅)) e3 = (inr rb, e4) /\
      call_provider scripted_host (req (OPTION_C_PROMPT ∅)) e4 = (inr rc, e5) /\
      results st' = ["story"; text_a ra; text_b rb; text_c rc] /\
      chat_log st' =
        [story_req; req (OPTION_A_PROMPT ∅); req (OPTION_B_PROMPT ∅);
         req (OPTION_C_PROMPT ∅)] /\
      session_is (h2 ++ [options_summary (text_a ra) (text_b rb) (text_c rc)])
        (three_options (text_a ra) (text_b rb) (text_c rc)) /\
      fresh_options_after_story st st' "room")
   \/ (exists e2,
      lookup_conversation scripted_host "room" rest = (inr None, e2) /\
      results st' = ["story"; "无法获取对话，请重新开始游戏"] /\
      session_is h2 offered)
   \/ (exists d e2,
      lookup_conversation scripted_host "room" rest = (inl d, e2) /\
      results st' = ["story"; notice d] /\
      session_is h2 offered)
   \/ (exists c1 e2 d e3,
      lookup_conversation scripted_host "room" rest = (inr (Some c1), e2) /\
      call_provider scripted_host (req (OPTION_A_PROMPT ∅)) e2 = (inl d, e3) /\
      results st' = ["story"; notice d] /\
      session_is h2 ∅)
   \/ (exists c1 e2 ra e3 d e4,
      lookup_conversation scripted_host "room" rest = (inr (Some c1), e2) /\
      call_provider scripted_host (req (OPTION_A_PROMPT ∅)) e2 = (inr ra, e3) /\
      call_provider scripted_host (req (OPTION_B_PROMPT ∅)) e3 = (inl d, e4) /\
      results st' = ["story"; text_a ra; notice d] /\
      session_is h2 (<["A" := text_a ra]> ∅))
   \/ (exists c1 e2 ra e3 rb e4 d e5,
      lookup_conversation scripted_host "room" rest = (inr (Some c1), e2) /\
      call_provider scripted_host (req (OPTION_A_PROMPT ∅)) e2 = (inr ra, e3) /\
      call_provider scripted_host (req (OPTION_B_PROMPT ∅)) e3 = (inr rb, e4) /\
      call_provider scripted_host (req (OPTION_C_PROMPT ∅)) e4 = (inl d, e5) /\
      results st' = ["story"; text_a ra; text_b rb; notice d] /\
      session_is h2 (<["B" := text_b rb]> (<["A" := text_a ra]> ∅)))).
Proof.
  intros script rest st st' h1 h2 story_req after_story session_is req
    text_a text_b text_c notice.
  assert (Hne : "A - a" <> "") by discriminate.
  split; [repeat split; exact Hne|].
  exact (choice_turn_continues scripted_host ascii_builtins ∅ (ev "a") "A" st running
           "A - a" talk script (mkResponse (Some "story")) rest
           eq_refl eq_refl Hne eq_refl eq_refl).
Defined.

(** A stop of the running game, a stop where no game was ever started, and
    the start that follows. *)
Lemma stop_then_start_witness :
  let st := before running [fails "timeout"] in
  let idle_st := idle ∅ [fails "timeout"] in
  let halted :=
    mkState {["room" := mkSession false [] offered]} [fails "timeout"]
      ["gal已关闭"] [] true false in
  let never :=
    mkState ∅ [fails "timeout"] ["gal已关闭"] [] true false in
  let fresh :=
    mkState {["room" := mkSession true [] ∅]} [fails "timeout"]
      ["gal已关闭"; "gal已启动"] [] true false in
  (unified_msg_origin (ev "gal启动") = unified_msg_origin (ev "gal关闭") /\
   game_sessions st !! "room" = Some running /\
   game_active running = true /\
   (game_sessions idle_st !! "room" = None \/
    exists s0, game_sessions idle_st !! "room" = Some s0 /\ game_active s0 = false)) /\
  handle_stop_galgame ascii_builtins (ev "gal关闭") st = (inr tt, halted) /\
  handle_stop_galgame ascii_builtins (ev "gal关闭") idle_st
  = (inr tt, mkState ∅ [fails "timeout"] ["当前没有进行中的 gal 游戏"] [] true false) /\
  handle_start_galgame scripted_host ascii_builtins ∅ (ev "gal启动") halted
  = handle_start_galgame scripted_host ascii_builtins ∅ (ev "gal启动") never /\
  handle_start_galgame scripted_host ascii_builtins ∅ (ev "gal启动") halted
  = _generate_initial_scene scripted_host ascii_builtins ∅ (ev "gal启动") fresh.
Proof.
  intros st idle_st halted never fresh.
  split; [repeat split; left; reflexivity|].
  exact (stop_then_start scripted_host ascii_builtins ∅ (ev "gal关闭") (ev "gal启动")
           st running idle_st eq_refl eq_refl eq_refl (or_introl eq_refl)).
Defined.

(** A first start with a provider that answers four times, the third time
    without [completion_text]. *)
Lemma start_opens_game_witness :
  let script := [says "scene"; says "A - x"; silent; says "C - z"] in
  let st := idle ∅ script in
  let h := [mkMessage system (SYSTEM_SCENE_PROMPT ∅); mkMessage assistant "scene"] in
  let req p := option_request p h in
  (in_game (game_sessions st) "room" = false /\
   lookup_conversation scripted_host "room" script = (inr (Some talk), script) /\
   get_llm_tool_manager scripted_host script = (inr tt, script) /\
   call_provider scripted_host (scene_request scripted_host ∅ script talk []) script
   = (says "scene", [says "A - x"; silent; says "C - z"]) /\
   lookup_conversation scripted_host "room" [says "A - x"; silent; says "C - z"]
   = (inr (Some talk), [says "A - x"; silent; says "C - z"]) /\
   call_provider scripted_host (req (OPTION_A_PROMPT ∅)) [says "A - x"; silent; says "C - z"]
   = (says "A - x", [silent; says "C - z"]) /\
   call_provider scripted_host (req (OPTION_B_PROMPT ∅)) [silent; says "C - z"]
   = (silent, [says "C - z"]) /\
   call_provider scripted_host (req (OPTION_C_PROMPT ∅)) [says "C - z"]
   = (says "C - z", [])) /\
  handle_start_galgame scripted_host ascii_builtins ∅ (ev "gal启动") st
  = (inr tt,
     mkState
       {["room" := mkSession true
                     (h ++ [options_summary "A - x" "B - 挑逗一笑" "C - z"])
                     (three_options "A - x" "B - 挑逗一笑" "C - z")]}
       []
       ["gal已启动"; "scene"; "A - x"; "B - 挑逗一笑"; "C - z"]
       [scene_request scripted_host ∅ script talk [];
        req (OPTION_A_PROMPT ∅); req (OPTION_B_PROMPT ∅); req (OPTION_C_PROMPT ∅)]
       true false).
Proof.
  intros script st h req.
  split; [repeat split|].
  exact (start_opens_game scripted_host ascii_builtins ∅ (ev "gal启动") st
           talk script tt script (mkResponse (Some "scene"))
           [says "A - x"; silent; says "C - z"] talk
           [says "A - x"; silent; says "C - z"]
           (mkResponse (Some "A - x")) [silent; says "C - z"]
           (mkResponse None) [says "C - z"]
           (mkResponse (Some "C - z")) []
           eq_refl eq_refl eq_refl eq_refl eq_refl eq_refl eq_refl eq_refl).
Defined.

(** The three phases when there is no conversation. *)
Lemma phases_without_conversation_witness :
  let st := before running [says "never asked"] in
  let halted :=
    (inr tt,
     mkState {["room" := running]} [says "never asked"]
       ["无法获取对话，请重新开始游戏"] [] true false) in
  lookup_conversation lost_host "room" (env st) = (inr None, [says "never asked"]) /\
  _generate_initial_scene lost_host ascii_builtins ∅ (ev "") st = halted /\
  _generate_options lost_host ascii_builtins ∅ (ev "") st = halted /\
  _generate_story_progression lost_host ascii_builtins ∅ (ev "") "A" "A - a" st = halted.
Proof.
  intros st halted. split; [reflexivity|].
  exact (phases_without_conversation lost_host ascii_builtins ∅ (ev "") "A" "A - a" st
           [says "never asked"] eq_refl).
Defined.

(** The label A stored with an empty text. *)
Lemma empty_option_rejected_witness :
  let s := mkSession true told (<["A" := ""]> ∅) in
  (game_sessions (before s []) !! "room" = Some s /\
   last_options s !! "A" = Some "") /\
  _process_user_choice scripted_host ascii_builtins ∅ (ev "a") "A" (before s [])
  = (inr tt,
     mkState {["room" := s]} [] ["无法识别您的选择，请重新选择A、B或C"] [] true false).
Proof.
  intros s. split; [split; reflexivity|].
  exact (empty_option_rejected scripted_host ascii_builtins ∅ (ev "a") "A"
           (before s []) s eq_refl eq_refl).
Defined.

(** A choice where the store is empty. *)
Lemma choice_without_session_witness :
  game_sessions (idle ∅ ([] : list (string + Response))) !! "room" = None /\
  _process_user_choice scripted_host ascii_builtins ∅ (ev "a") "A" (idle ∅ [])
  = (inr tt, mkState ∅ [] ["处理选择时出错: 'room'"] [] true false).
Proof.
  split; [reflexivity|].
  exact (choice_without_session scripted_host ascii_builtins ∅ (ev "a") "A"
           (idle ∅ []) eq_refl).
Defined.

(** The message ["A"] where no game runs. *)
Lemma input_ignored_when_inactive_witness :
  in_game (game_sessions (idle ∅ [says "never asked"])) "room" = false /\
  handle_game_input scripted_host ascii_builtins ∅ (ev "A") (idle ∅ [says "never asked"])
  = (inr tt, idle ∅ [says "never asked"]).
Proof.
  split; [reflexivity|].
  exact (input_ignored_when_inactive scripted_host ascii_builtins ∅ (ev "A")
           (idle ∅ [says "never asked"]) eq_refl).
Defined.

(** The message ["gal关闭"] seen by the input handler while the game runs. *)
Lemma command_text_passes_through_witness :
  (in_game (game_sessions (before running [])) "room" = true /\
   (str_upper ascii_builtins (str_strip ascii_builtins "gal关闭")
    ∈ ["GAL启动"; "GAL关闭"])) /\
  handle_game_input scripted_host ascii_builtins ∅ (ev "gal关闭") (before running [])
  = (inr tt, before running []).
Proof.
  assert (Hcommand : str_upper ascii_builtins (str_strip ascii_builtins "gal关闭")
                     ∈ ["GAL启动"; "GAL关闭"])
    by (apply (bool_decide_unpack _); vm_compute; exact I).
  split; [split; [reflexivity | exact Hcommand]|].
  exact (command_text_passes_through scripted_host ascii_builtins ∅ (ev "gal关闭")
           (before running []) eq_refl Hcommand).
Defined.

(** The message [" b "] while the game runs. *)
Lemma choice_input_dispatch_witness :
  let st := before running [fails "timeout"] in
  let muted := mkState {["room" := running]} [fails "timeout"] [] [] false false in
  let st' := (handle_game_input scripted_host ascii_builtins ∅ (ev " b ") st).2 in
  (in_game (game_sessions st) "room" = true /\
   (str_upper ascii_builtins (str_strip ascii_builtins " b ") ∈ ["A"; "B"; "C"])) /\
  handle_game_input scripted_host ascii_builtins ∅ (ev " b ") st
  = _process_user_choice scripted_host ascii_builtins ∅ (ev " b ") "B" muted /\
  call_llm st' = false /\
  stopped st' = false.
Proof.
  intros st muted st'.
  assert (Hchoice : str_upper ascii_builtins (str_strip ascii_builtins " b ")
                    ∈ ["A"; "B"; "C"])
    by (apply (bool_decide_unpack _); vm_compute; exact I).
  split; [split; [reflexivity | exact Hchoice]|].
  exact (choice_input_dispatch scripted_host ascii_builtins ∅ (ev " b ") st
           eq_refl Hchoice).
Defined.

(** The session of another room during the handlers of ["room"]. *)
Lemma handlers_keep_other_sessions_witness :
  let st :=
    mkState (<["hall" := running]> {["room" := running]})
      [says "story"; fails "timeout"] [] [] true false in
  "hall" <> unified_msg_origin (ev "a") /\
  game_sessions (handle_start_galgame scripted_host ascii_builtins ∅ (ev "a") st).2 !! "hall"
  = Some running /\
  game_sessions (handle_stop_galgame ascii_builtins (ev "a") st).2 !! "hall"
  = Some running /\
  game_sessions (handle_game_input scripted_host ascii_builtins ∅ (ev "a") st).2 !! "hall"
  = Some running.
Proof.
  intros st.
  assert (Hk : "hall" <> unified_msg_origin (ev "a")) by discriminate.
  split; [exact Hk|].
  exact (handlers_keep_other_sessions scripted_host ascii_builtins ∅ (ev "a") st "hall" Hk).
Defined.

(** The choice A with a provider that tells the story and then times out. *)
Lemma game_input_advances_witness :
  let st := before running [says "story"; fails "timeout"] in
  let st' := (handle_game_input scripted_host ascii_builtins ∅ (ev "a") st).2 in
  game_sessions st !! "room" = Some running /\
  (exists s', game_sessions st' !! "room" = Some s' /\
     game_active s' = true /\
     told `prefix_of` llm_context s' /\
     dom (last_options s') ⊆ dom offered ∪ labels) /\
  results st `prefix_of` results st'.
Proof.
  intros st st'. split; [reflexivity|].
  exact (game_input_advances scripted_host ascii_builtins ∅ (ev "a") st running eq_refl).
Defined.

(** The store of the running game satisfies the invariant, and so do the
    stores the handlers leave. *)
Lemma handlers_keep_store_ok_witness :
  let st := before running [says "story"; fails "timeout"] in
  store_ok (game_sessions st) /\
  store_ok (game_sessions (handle_start_galgame scripted_host ascii_builtins ∅ (ev "a") st).2) /\
  store_ok (game_sessions (handle_stop_galgame ascii_builtins (ev "a") st).2) /\
  store_ok (game_sessions (handle_game_input scripted_host ascii_builtins ∅ (ev "a") st).2) /\
  store_ok (game_sessions (terminate st).2) /\
  store_ok ∅.
Proof.
  intros st.
  assert (Hok : store_ok (game_sessions st)).
  { intros k s Hk. subst st. unfold before in Hk. cbn [game_sessions] in Hk.
    apply lookup_singleton_Some in Hk as [_ <-]. split.
    - apply (bool_decide_unpack _). vm_compute. exact I.
    - discriminate. }
  split; [exact Hok|].
  exact (handlers_keep_store_ok scripted_host ascii_builtins ∅ (ev "a") st Hok).
Defined.

(** A stop of the running game, then the message ["A"] and a second stop. *)
Lemma stopped_game_is_closed_witness :
  let st := before running [says "never asked"] in
  let st' := (handle_stop_galgame ascii_builtins (ev "gal关闭") st).2 in
  (unified_msg_origin (ev "A") = unified_msg_origin (ev "gal关闭") /\
   game_sessions st !! "room" = Some running /\
   game_active running = true) /\
  game_sessions st' !! "room" = Some (mkSession false [] offered) /\
  handle_game_input scripted_host ascii_builtins ∅ (ev "A") st' = (inr tt, st') /\
  handle_stop_galgame ascii_builtins (ev "gal关闭") st'
  = (inr tt,
     mkState (game_sessions st') [says "never asked"]
       ["gal已关闭"; "当前没有进行中的 gal 游戏"] [] true false).
Proof.
  intros st st'. split; [repeat split|].
  exact (stopped_game_is_closed scripted_host ascii_builtins ∅ (ev "gal关闭") (ev "A")
           st running eq_refl eq_refl eq_refl).
Defined.

(** The choice B made twice with a provider that times out twice. *)
Lemma failed_turn_can_be_repeated_witness :
  let script := [fails "timeout"; fails "still down"] in
  let st := before running script in
  let st1 := (_process_user_choice scripted_host ascii_builtins ∅ (ev "b") "B" st).2 in
  let st2 := (_process_user_choice scripted_host ascii_builtins ∅ (ev "b") "B" st1).2 in
  let chosen := choice_entry "B - b" in
  (game_sessions st !! "room" = Some running /\
   last_options running !! "B" = Some "B - b" /\
   "B - b" <> "" /\
   lookup_conversation scripted_host "room" script = (inr (Some talk), script) /\
   call_provider scripted_host
     (story_request scripted_host ∅ script talk "B - b" (told ++ [chosen])) script
   = (inl "timeout", [fails "still down"]) /\
   lookup_conversation scripted_host "room" [fails "still down"]
   = (inr (Some talk), [fails "still down"]) /\
   call_provider scripted_host
     (story_request scripted_host ∅ [fails "still down"] talk "B - b"
        ((told ++ [chosen]) ++ [chosen])) [fails "still down"]
   = (inl "still down", [])) /\
  results st2 = ["生成故事进展时出错: timeout"; "生成故事进展时出错: still down"] /\
  game_sessions st2 !! "room" = Some (mkSession true (told ++ [chosen; chosen]) offered).
Proof.
  intros script st st1 st2 chosen.
  assert (Hne : "B - b" <> "") by discriminate.
  split; [repeat split; exact Hne|].
  exact (failed_turn_can_be_repeated scripted_host ascii_builtins ∅ (ev "b") "B" st
           running "B - b" talk script "timeout" [fails "still down"]
           talk [fails "still down"] "still down" []
           eq_refl eq_refl Hne eq_refl eq_refl eq_refl eq_refl).
Defined.

(** The choice A after an option generation whose first call timed out. *)
Lemma no_choice_after_failed_options_witness :
  let script := [fails "timeout"] in
  let st := before running script in
  let st' := (_generate_options scripted_host ascii_builtins ∅ (ev "") st).2 in
  (game_sessions st !! "room" = Some running /\
   lookup_conversation scripted_host "room" script = (inr (Some talk), script) /\
   call_provider scripted_host (option_request (OPTION_A_PROMPT ∅) told) script
   = (inl "timeout", [])) /\
  _process_user_choice scripted_host ascii_builtins ∅ (ev "") "A" st'
  = (inr tt,
     mkState (game_sessions st') []
       ["生成选项时出错: timeout"; "无法识别您的选择，请重新选择A、B或C"]
       [option_request (OPTION_A_PROMPT ∅) told] true false).
Proof.
  intros script st st'. split; [repeat split|].
  exact (no_choice_after_failed_options scripted_host ascii_builtins ∅ (ev "") "A" st
           running talk script "timeout" [] eq_refl eq_refl eq_refl).
Defined.

(** An unbound conversation where reading the default persona raises. *)
Lemma system_prompt_falls_back_witness :
  let host := staffed_host (inl "no such attribute") (inr [alice]) in
  (None = Some "[%None]"
   \/ ((None : option string) = None /\
       forall p, selected_default_persona host [] = inr (Some p) -> p = ∅)
   \/ (exists pid, None = Some pid /\
         forall ps p, personas host [] = inr ps -> p ∈ ps -> p !! "id" <> Some pid)) /\
  _get_system_prompt host [] None scene_engine_prompt = scene_engine_prompt.
Proof.
  intros host.
  assert (H : None = Some "[%None]"
              \/ ((None : option string) = None /\
                  forall p, selected_default_persona host [] = inr (Some p) -> p = ∅)
              \/ (exists pid, None = Some pid /\
                    forall ps p, personas host [] = inr ps -> p ∈ ps ->
                                 p !! "id" <> Some pid)).
  { right; left. split; [reflexivity|]. intros p Hp. discriminate Hp. }
  split; [exact H|].
  exact (system_prompt_falls_back host [] None scene_engine_prompt H).
Defined.

(** A conversation bound to ["alice"] where two personas have that id. *)
Lemma system_prompt_of_first_match_witness :
  let host := staffed_host (inr None) (inr [bob; alice; alice2]) in
  ("alice" <> "[%None]" /\
   personas host [] = inr ([bob] ++ alice :: [alice2]) /\
   (forall q, q ∈ [bob] -> q !! "id" <> Some "alice") /\
   alice !! "id" = Some "alice") /\
  _get_system_prompt host [] (Some "alice") story_engine_prompt = "You are Alice.".
Proof.
  intros host.
  assert (Hpid : "alice" <> "[%None]") by discriminate.
  assert (Hbefore : forall q : Persona, q ∈ [bob] -> q !! "id" <> Some "alice").
  { intros q Hq. apply list_elem_of_singleton in Hq as ->. discriminate. }
  split; [repeat split; assumption|].
  exact (system_prompt_of_first_match host [] "alice" story_engine_prompt
           [bob] alice [alice2] Hpid eq_refl Hbefore eq_refl).
Defined.

(** ** Where the specification and the code part *)

(** C1 as the specification words it fails: with a provider that raises on
    every call, [_generate_options] on an active session sends one notice and
    no option, and [last_options] is left empty. *)
Lemma options_failure_not_masked :
  let script := [fails "timeout"; fails "timeout"; fails "timeout"] in
  let st := before running script in
  let st' := (_generate_options scripted_host ascii_builtins ∅ (ev "") st).2 in
  game_sessions st !! "room" = Some running /\
  game_active running = true /\
  results st' = ["生成选项时出错: timeout"] /\
  last_options <$> game_sessions st' !! "room" = Some ∅ /\
  ~ three_options_offered st st' "room".
Proof.
  intros script st st'.
  split; [reflexivity|]. split; [reflexivity|].
  split; [vm_compute; reflexivity|]. split; [vm_compute; reflexivity|].
  intros [(a & b & c & Hsent) _]. vm_compute in Hsent. discriminate Hsent.
Qed.

(** C4 as the specification words it fails: the label is on offer and the
    continuation call returns, but the first option call raises; the turn
    sends the story and one notice, no option, and [last_options] is left
    empty. *)
Lemma choice_turn_without_options :
  let script := [says "story"; fails "timeout"] in
  let st := before running script in
  let st' := (_process_user_choice scripted_host ascii_builtins ∅ (ev "a") "A" st).2 in
  game_sessions st !! "room" = Some running /\
  last_options running !! "A" = Some "A - a" /\
  results st' = ["story"; "生成选项时出错: timeout"] /\
  game_sessions st' !! "room" =
    Some (mkSession true
            (told ++ [mkMessage user ("用户选择了：" +:+ "A - a");
                      mkMessage assistant "story"])
            ∅) /\
  ~ fresh_options_after_story st st' "room".
Proof.
  intros script st st'.
  split; [reflexivity|]. split; [reflexivity|].
  split; [vm_compute; reflexivity|]. split; [vm_compute; reflexivity|].
  intros (story & a & b & c & s' & Hsent & _). vm_compute in Hsent. discriminate Hsent.
Qed.
